(** * manifest.c: search a JAR manifest for its Main-Class attribute

    Shallow embedding of [manifest_get_main()] from
    [jvm/src/manifest.c] and of the library calls it makes, followed by
    the properties of the scan. *)

From Stdlib Require Import Ascii String List Arith Bool ZArith NArith Lia.
Import ListNotations.

(** ** Characters and buffers *)

(** [rchar] is the character type of the JVM sources. *)
Definition rchar := ascii.

(** The string terminator ['\0']. *)
Definition NUL : rchar := "000"%char.

(** The characters a buffer holds in front of the terminator that the
    library call which filled it has written.  A buffer filled by
    [fgets()] from a file that holds NUL bytes holds them too: the code
    then sees the C string that ends at the first of them. *)
Definition cbuf := list rchar.

(** [mnfdata[i]]: reading at the end of the stored characters gives the
    terminator. *)
Definition char_at (s : cbuf) (i : nat) : rchar := nth i s NUL.

(** ** Library calls *)

Module Libc.

(** [isspace()] in the "C" locale: space and the five control
    characters tab, newline, vertical tab, form feed and carriage
    return.  Its [int] result is only ever compared with 0, so the
    model gives [true] for non-zero. *)
Definition isspace (c : rchar) : bool :=
  let n := N_of_ascii c in
  ((n =? 32) || ((9 <=? n) && (n <=? 13)))%N.

(** [strlen()]: the number of characters before the first NUL. *)
Fixpoint strlen (s : cbuf) : nat :=
  match s with
  | [] => 0
  | c :: s' => if Ascii.eqb c NUL then 0 else S (strlen s')
  end.

(** [strncmp()]: compares at most [n] characters, stops behind a NUL
    common to both strings, and gives the difference of the first pair
    of characters that differ. *)
Fixpoint strncmp (s1 s2 : cbuf) (n : nat) : Z :=
  match n with
  | 0 => 0%Z
  | S n' =>
      let c1 := char_at s1 0 in
      let c2 := char_at s2 0 in
      if Ascii.eqb c1 c2
      then if Ascii.eqb c1 NUL then 0%Z else strncmp (tl s1) (tl s2) n'
      else (Z.of_N (N_of_ascii c1) - Z.of_N (N_of_ascii c2))%Z
  end.

(** [memcpy(dst, &src[from], len)]: the characters copied. *)
Definition memcpy (src : cbuf) (from len : nat) : cbuf :=
  firstn len (skipn from src).

End Libc.

(** ** Configuration: [jvmcfg.h] and [exit.h] *)

Module Jvmcfg.

(** Modelled from the spec: the macro
    [JVMCFG_JARFILE_MANIFEST_MAIN_CLASS] of [jvmcfg.h], which is not
    among the sources; the attribute name is the literal
    ["Main-Class:"], colon included, as the comments of [manifest.c]
    have it too. *)
Definition JVMCFG_JARFILE_MANIFEST_MAIN_CLASS : cbuf :=
  list_ascii_of_string "Main-Class:".

End Jvmcfg.

(** The exit code [manifest_get_main()] uses; its number is set in
    [exit.h]. *)
Inductive exit_code : Set := EXIT_MANIFEST_JAR.

(** ** The world around the call *)

(** A manifest file is the sequence of lines successive calls of
    [fgets(mnfdata, JVMCFG_STDIO_BFR, mf)] deliver from it, each the
    characters one call stores in the buffer; the file system maps a
    path name to the file [fopen(name, "r")] can open there, if any. *)
Definition file_system := cbuf -> option (list cbuf).

(** A message passed to [sysErrMsg()]: function name, format, argument. *)
Record errmsg : Type := mkErrmsg {
  em_fn : string;
  em_fmt : string;
  em_arg : cbuf
}.

Record world : Type := mkWorld {
  open_handles : nat;       (** [FILE] handles opened and not yet closed *)
  fgets_calls : nat;        (** calls of [fgets()] so far *)
  delivered : list cbuf;    (** the lines [fgets()] handed out, oldest first *)
  heap : list nat;          (** sizes of the live heap blocks, newest first *)
  errlog : list errmsg      (** what [sysErrMsg()] has printed, oldest first *)
}.

Definition initial_world : world :=
  mkWorld 0 0 [] [] [].

(** How control leaves [manifest_get_main()]. *)
Inductive outcome : Type :=
| Returned (p : option cbuf)   (** [return(p)]: [None] is [rnull], [Some s]
                                   a heap block that holds the C string [s] *)
| Exited (code : exit_code).   (** [exit_jvm(code)], which does not return *)

Definition rnull : option cbuf := None.

(** [fopen(mnfname, "r")]: the lines of the stream, or [rnull]. *)
Definition fopen (fs : file_system) (mnfname : cbuf) (w : world)
  : option (list cbuf) * world :=
  match fs mnfname with
  | None => (None, w)
  | Some lines =>
      (Some lines,
       mkWorld (S (open_handles w)) (fgets_calls w) (delivered w)
               (heap w) (errlog w))
  end.

Definition fclose (w : world) : world :=
  mkWorld (pred (open_handles w)) (fgets_calls w) (delivered w)
          (heap w) (errlog w).

(** [fgets()] that delivers the line [l] into the buffer. *)
Definition fgets_line (l : cbuf) (w : world) : world :=
  mkWorld (open_handles w) (S (fgets_calls w)) (delivered w ++ [l])
          (heap w) (errlog w).

(** [fgets()] at the end of the file: the call that returns [NULL]. *)
Definition fgets_eof (w : world) : world :=
  mkWorld (open_handles w) (S (fgets_calls w)) (delivered w)
          (heap w) (errlog w).

(** [HEAP_GET_DATA(size, rfalse)], taken to succeed; the call that can
    fail is [HEAP_GET_DATA_room] below. *)
Definition HEAP_GET_DATA (size : nat) (w : world) : world :=
  mkWorld (open_handles w) (fgets_calls w) (delivered w)
          (size :: heap w) (errlog w).

Fixpoint remove_block (size : nat) (h : list nat) : list nat :=
  match h with
  | [] => []
  | b :: h' => if Nat.eqb b size then h' else b :: remove_block size h'
  end.

(** [HEAP_FREE_DATA(p)] for a block [p] of [size] bytes: the heap keeps
    the sizes of its blocks only, and loses one block of that size. *)
Definition HEAP_FREE_DATA (size : nat) (w : world) : world :=
  mkWorld (open_handles w) (fgets_calls w) (delivered w)
          (remove_block size (heap w)) (errlog w).

Definition sysErrMsg (fn fmt : string) (arg : cbuf) (w : world) : world :=
  mkWorld (open_handles w) (fgets_calls w) (delivered w)
          (heap w) (errlog w ++ [mkErrmsg fn fmt arg]).

(** ** [manifest_get_main()] *)

Module Manifest.
Import Libc Jvmcfg.

(** Both scans of a matching line have the shape
    [for (i = from; i < strlen(mnfdata); i++) if (stop(mnfdata[i])) break;]
    The argument [left] is the loop's variant [strlen(mnfdata) - i]:
    the condition [i < strlen(mnfdata)] fails exactly when it is 0.
    The indices are of type [rint]; they stay within the line buffer,
    so their arithmetic is that of [nat]. *)
Fixpoint scan_index (stop : rchar -> bool) (mnfdata : cbuf)
         (left i : nat) : nat :=
  match left with
  | 0 => i
  | S left' =>
      if stop (char_at mnfdata i) then i
      else scan_index stop mnfdata left' (S i)
  end.

(** The same loop with its condition as written, run for at most
    [fuel] tests of the condition; [None] when they do not suffice. *)
Fixpoint for_loop (fuel : nat) (stop : rchar -> bool) (mnfdata : cbuf)
         (i : nat) : option nat :=
  match fuel with
  | 0 => None
  | S fuel' =>
      if i <? strlen mnfdata
      then if stop (char_at mnfdata i) then Some i
           else for_loop fuel' stop mnfdata (S i)
      else Some i
  end.

(** Lines 123 to 131: the first character after the attribute name
    that is not white space. *)
Definition class_start (mnfdata : cbuf) (mclen : nat) : nat :=
  scan_index (fun c => negb (isspace c)) mnfdata
             (strlen mnfdata - mclen) mclen.

(** Lines 140 to 148: the first white space character after the class
    name. *)
Definition class_end (mnfdata : cbuf) (i : nat) : nat :=
  scan_index isspace mnfdata (strlen mnfdata - i) i.

(** Line 110: does the line start with the attribute name? *)
Definition is_main_class (mnfdata : cbuf) (mclen : nat) : bool :=
  (strncmp mnfdata JVMCFG_JARFILE_MANIFEST_MAIN_CLASS mclen =? 0)%Z.

(** Lines 117 to 177: the body of the loop for a line that carries the
    attribute name. *)
Definition on_match (JVMCFG_STDIO_BFR : nat) (mnfname mnfdata : cbuf)
           (mclen : nat) (w : world) : outcome * world :=
  let i := class_start mnfdata mclen in
  let j := class_end mnfdata i in
  let w := fclose w in
  if negb (Nat.eqb i j)
  then
    let w := HEAP_GET_DATA (j - i + 1) w in
    let mnfresult := memcpy mnfdata i (j - i) in
    let w := HEAP_FREE_DATA JVMCFG_STDIO_BFR w in
    (Returned (Some mnfresult), w)
  else
    let w := HEAP_FREE_DATA JVMCFG_STDIO_BFR w in
    let w := sysErrMsg "manifest_get_main"
                       "Missing class name in manifest file %s"
                       mnfname w in
    (Exited EXIT_MANIFEST_JAR, w).

(** Lines 104 to 184: the [while] loop over the lines still in the
    stream, and what follows it at the end of the file. *)
Fixpoint read_loop (JVMCFG_STDIO_BFR : nat) (mnfname : cbuf)
         (mclen : nat) (lines : list cbuf) (w : world)
  : outcome * world :=
  match lines with
  | [] =>
      let w := fgets_eof w in
      let w := fclose w in
      let w := HEAP_FREE_DATA JVMCFG_STDIO_BFR w in
      (Returned rnull, w)
  | mnfdata :: lines' =>
      let w := fgets_line mnfdata w in
      if negb (is_main_class mnfdata mclen)
      then read_loop JVMCFG_STDIO_BFR mnfname mclen lines' w
      else on_match JVMCFG_STDIO_BFR mnfname mnfdata mclen w
  end.

(** The function; [JVMCFG_STDIO_BFR] is the size of the line buffer,
    a macro of [jvmcfg.h]. *)
Definition manifest_get_main (JVMCFG_STDIO_BFR : nat)
           (fs : file_system) (mnfname : cbuf) (w : world)
  : outcome * world :=
  match fopen fs mnfname w with
  | (None, w) => (Returned rnull, w)
  | (Some lines, w) =>
      let w := HEAP_GET_DATA JVMCFG_STDIO_BFR w in
      let mclen := strlen JVMCFG_JARFILE_MANIFEST_MAIN_CLASS in
      read_loop JVMCFG_STDIO_BFR mnfname mclen lines w
  end.

End Manifest.

Import Libc Jvmcfg Manifest.

(** ** [manifest_get_main()] on a heap that can run out *)

(** Whether [HEAP_GET_DATA(size, rfalse)] finds room is decided in
    [heap.h], which is not among the sources: a parameter, asked with
    the size wanted and the sizes of the live blocks. *)
Definition heap_room := nat -> list nat -> bool.

(** How control leaves the call when an allocation can fail: as before,
    or from within a failing [HEAP_GET_DATA(size, rfalse)], which does
    not give control back (the comment of line 159: after a failure
    what follows is never run). *)
Inductive leaving : Type :=
| Done (o : outcome)
| Heap_failure (size : nat).

(** [HEAP_GET_DATA(size, rfalse)]: the world with the block, or [None]
    when the heap has no room for it. *)
Definition HEAP_GET_DATA_room (room : heap_room) (size : nat) (w : world)
  : option world :=
  if room size (heap w) then Some (HEAP_GET_DATA size w) else None.

Module ManifestRoom.

(** Lines 117 to 177, with the allocation of line 157 able to fail. *)
Definition on_match (room : heap_room) (JVMCFG_STDIO_BFR : nat)
           (mnfname mnfdata : cbuf) (mclen : nat) (w : world)
  : leaving * world :=
  let i := class_start mnfdata mclen in
  let j := class_end mnfdata i in
  let w := fclose w in
  if negb (Nat.eqb i j)
  then
    match HEAP_GET_DATA_room room (j - i + 1) w with
    | None => (Heap_failure (j - i + 1), w)
    | Some w =>
        let mnfresult := memcpy mnfdata i (j - i) in
        let w := HEAP_FREE_DATA JVMCFG_STDIO_BFR w in
        (Done (Returned (Some mnfresult)), w)
    end
  else
    let w := HEAP_FREE_DATA JVMCFG_STDIO_BFR w in
    let w := sysErrMsg "manifest_get_main"
                       "Missing class name in manifest file %s"
                       mnfname w in
    (Done (Exited EXIT_MANIFEST_JAR), w).

(** Lines 104 to 184. *)
Fixpoint read_loop (room : heap_room) (JVMCFG_STDIO_BFR : nat)
         (mnfname : cbuf) (mclen : nat) (lines : list cbuf) (w : world)
  : leaving * world :=
  match lines with
  | [] =>
      let w := fgets_eof w in
      let w := fclose w in
      let w := HEAP_FREE_DATA JVMCFG_STDIO_BFR w in
      (Done (Returned rnull), w)
  | mnfdata :: lines' =>
      let w := fgets_line mnfdata w in
      if negb (is_main_class mnfdata mclen)
      then read_loop room JVMCFG_STDIO_BFR mnfname mclen lines' w
      else on_match room JVMCFG_STDIO_BFR mnfname mnfdata mclen w
  end.

(** The function, with the allocations of lines 99 and 157 able to
    fail. *)
Definition manifest_get_main (room : heap_room) (JVMCFG_STDIO_BFR : nat)
           (fs : file_system) (mnfname : cbuf) (w : world)
  : leaving * world :=
  match fopen fs mnfname w with
  | (None, w) => (Done (Returned rnull), w)
  | (Some lines, w) =>
      match HEAP_GET_DATA_room room JVMCFG_STDIO_BFR w with
      | None => (Heap_failure JVMCFG_STDIO_BFR, w)
      | Some w =>
          let mclen := strlen JVMCFG_JARFILE_MANIFEST_MAIN_CLASS in
          read_loop room JVMCFG_STDIO_BFR mnfname mclen lines w
      end
  end.

End ManifestRoom.

(** A heap of [limit] bytes: there is room while the live blocks and
    the block wanted fit in it. *)
Definition bounded_heap (limit : nat) : heap_room :=
  fun size live => list_sum live + size <=? limit.

(** A heap that never runs out. *)
Definition endless_heap : heap_room := fun _ _ => true.

(** ** Test inputs *)

Definition LF : rchar := "010"%char.
Definition CR : rchar := "013"%char.
Definition HT : rchar := "009"%char.
Definition VT : rchar := "011"%char.
Definition FF : rchar := "012"%char.
Definition SP : rchar := " "%char.

(** A line of text with its newline. *)
Definition line (s : string) : cbuf := list_ascii_of_string s ++ [LF].

(** A file system with one manifest, at [/m]. *)
Definition one_file (lines : list cbuf) : file_system :=
  fun name =>
    if list_eq_dec ascii_dec name (list_ascii_of_string "/m")
    then Some lines else None.

Definition no_file : file_system := fun _ => None.

Definition mnf : cbuf := list_ascii_of_string "/m".

(** The scan of a manifest with the given lines, from a fresh world and
    with a buffer of 1024 bytes. *)
Definition scan (lines : list cbuf) : outcome * world :=
  manifest_get_main 1024 (one_file lines) mnf initial_world.


(** ** Notions used to state the properties *)

(** [mclen], the length of the attribute name (line 101). *)
Definition mclen : nat := strlen JVMCFG_JARFILE_MANIFEST_MAIN_CLASS.

(** The line passes the test of line 110. *)
Definition matches (l : cbuf) : bool := is_main_class l mclen.

(** The indices [i] and [j] the two scans compute on the line. *)
Definition name_bounds (l : cbuf) : nat * nat :=
  let i := class_start l mclen in (i, class_end l i).

(** The characters the code copies out of the line (lines 173, 174). *)
Definition class_name (l : cbuf) : cbuf :=
  memcpy l (fst (name_bounds l)) (snd (name_bounds l) - fst (name_bounds l)).

(** The six characters of the white space class. *)
Definition white_six (c : rchar) : Prop :=
  c = SP \/ c = HT \/ c = LF \/ c = CR \/ c = FF \/ c = VT.

(** The line fails the test of line 110: the loop skips it. *)
Definition no_match (l : cbuf) : Prop := matches l = false.

(** The world once [fgets()] has delivered the lines [pre]. *)
Definition deliver (pre : list cbuf) (w : world) : world :=
  mkWorld (open_handles w) (length pre + fgets_calls w)
          (delivered w ++ pre) (heap w) (errlog w).

(** The message of lines 166 to 168. *)
Definition missing_class_name (mnfname : cbuf) : errmsg :=
  mkErrmsg "manifest_get_main" "Missing class name in manifest file %s"
           mnfname.

(** What a line that carries the attribute name makes of the call. *)
Definition line_outcome (l : cbuf) : outcome :=
  if Nat.eqb (fst (name_bounds l)) (snd (name_bounds l))
  then Exited EXIT_MANIFEST_JAR
  else Returned (Some (class_name l)).

(** [tolower()] on the letters of ASCII. *)
Definition tolower (c : rchar) : rchar :=
  let n := N_of_ascii c in
  if ((65 <=? n) && (n <=? 90))%N then ascii_of_N (n + 32) else c.

(** The C string a buffer holds: its characters in front of the first
    NUL.  What lies behind, the rest of the line or bytes an earlier
    [fgets()] left in the buffer, is no part of it. *)
Definition c_string (s : cbuf) : cbuf := firstn (strlen s) s.

(** The file system with each line cut down to its C string. *)
Definition fs_c_strings (fs : file_system) : file_system :=
  fun name => option_map (map c_string) (fs name).

(** What a line may hold behind the class name: nothing, or white space
    or a NUL byte and then any characters. *)
Definition ends_name (tail : cbuf) : Prop :=
  tail = [] \/
  exists c r, tail = c :: r /\ (isspace c = true \/ c = NUL).

(** ** The library calls *)

Section LibcFacts.

Local Arguments Ascii.eqb : simpl never.
Local Arguments N_of_ascii : simpl never.

Lemma mclen_eq : mclen = 11.
Proof. reflexivity. Qed.

Lemma isspace_white_six (c : rchar) : isspace c = true <-> white_six c.
Proof.
  unfold white_six; split.
  - destruct c as [[] [] [] [] [] [] [] []]; cbv; intro H;
      try discriminate H; auto 10.
  - intros [-> | [-> | [-> | [-> | [-> | ->]]]]]; reflexivity.
Qed.

Lemma isspace_NUL : isspace NUL = false.
Proof. reflexivity. Qed.

Lemma eqb_NUL (c : rchar) : Ascii.eqb c NUL = true <-> c = NUL.
Proof. apply Ascii.eqb_eq. Qed.

Lemma strlen_le_length (s : cbuf) : strlen s <= length s.
Proof.
  induction s as [| c s IH]; simpl; [lia |].
  destruct (Ascii.eqb c NUL); lia.
Qed.

Lemma strlen_char_not_NUL (s : cbuf) (k : nat) :
  k < strlen s -> char_at s k <> NUL.
Proof.
  revert k; induction s as [| c s IH]; simpl; intros k Hk; [lia |].
  destruct (Ascii.eqb c NUL) eqn:E; [lia |].
  destruct k as [| k]; simpl.
  - unfold char_at; simpl. intro H. apply eqb_NUL in H.
    rewrite H in E. discriminate E.
  - apply (IH k). lia.
Qed.

Lemma strlen_no_NUL (s : cbuf) : ~ In NUL s -> strlen s = length s.
Proof.
  induction s as [| c s IH]; simpl; intro H; [reflexivity |].
  destruct (Ascii.eqb c NUL) eqn:E.
  - apply eqb_NUL in E. exfalso. apply H. left. assumption.
  - f_equal. apply IH. intro Hin. apply H. right. assumption.
Qed.

Lemma N_of_ascii_inj (c d : rchar) :
  (Z.of_N (N_of_ascii c) - Z.of_N (N_of_ascii d) = 0)%Z -> c = d.
Proof.
  intro H.
  rewrite <- (ascii_N_embedding c), <- (ascii_N_embedding d).
  f_equal. lia.
Qed.

(** [strncmp()] against a literal free of NUL gives 0 exactly when
    the string starts with the literal. *)
Lemma strncmp_literal (lit : cbuf) :
  ~ In NUL lit ->
  forall s, strncmp s lit (length lit) = 0%Z <-> firstn (length lit) s = lit.
Proof.
  induction lit as [| c lit IH]; intros Hnul s; simpl.
  - split; reflexivity.
  - assert (Hc : c <> NUL) by (intro E; apply Hnul; left; auto).
    assert (Hlit : ~ In NUL lit) by (intro E; apply Hnul; right; auto).
    unfold char_at; destruct s as [| d s]; simpl.
    + destruct (Ascii.eqb NUL c) eqn:E.
      * apply Ascii.eqb_eq in E. exfalso. apply Hc. symmetry. exact E.
      * split; [| discriminate].
        intro H. exfalso. apply Hc. symmetry.
        apply N_of_ascii_inj. exact H.
    + destruct (Ascii.eqb d c) eqn:E.
      * apply Ascii.eqb_eq in E. subst d.
        destruct (Ascii.eqb c NUL) eqn:E0.
        { apply eqb_NUL in E0. exfalso. apply Hc. exact E0. }
        rewrite (IH Hlit s). split; [intros ->; reflexivity |].
        intro H; injection H; auto.
      * split.
        { intro H. exfalso. apply Ascii.eqb_neq in E. apply E.
          apply N_of_ascii_inj. exact H. }
        { intro H. injection H. intros _ ->.
          rewrite Ascii.eqb_refl in E. discriminate. }
Qed.

Lemma main_class_no_NUL : ~ In NUL JVMCFG_JARFILE_MANIFEST_MAIN_CLASS.
Proof. cbv. intuition discriminate. Qed.

Lemma main_class_length : length JVMCFG_JARFILE_MANIFEST_MAIN_CLASS = mclen.
Proof. reflexivity. Qed.

Lemma matches_firstn (l : cbuf) :
  matches l = true <-> firstn mclen l = JVMCFG_JARFILE_MANIFEST_MAIN_CLASS.
Proof.
  unfold matches, is_main_class. rewrite Z.eqb_eq.
  rewrite <- main_class_length.
  apply strncmp_literal, main_class_no_NUL.
Qed.

End LibcFacts.

(** ** The two scans of a line *)

Section ScanFacts.

Variable stop : rchar -> bool.
Variable s : cbuf.

Lemma scan_index_bounds (left i : nat) :
  i <= scan_index stop s left i <= i + left.
Proof.
  revert i; induction left as [| left IH]; intro i; simpl; [lia |].
  destruct (stop (char_at s i)); [lia |].
  specialize (IH (S i)). lia.
Qed.

(** No character the scan has stepped over stops it. *)
Lemma scan_index_skipped (left i k : nat) :
  i <= k < scan_index stop s left i -> stop (char_at s k) = false.
Proof.
  revert i; induction left as [| left IH]; intro i; simpl; [lia |].
  destruct (stop (char_at s i)) eqn:E; [lia |].
  intro H. destruct (Nat.eq_dec k i) as [-> | Hne]; [exact E |].
  apply (IH (S i)). lia.
Qed.

(** A scan that ends before the end of the string ends on a
    character that stops it. *)
Lemma scan_index_stops (left i : nat) :
  scan_index stop s left i < i + left ->
  stop (char_at s (scan_index stop s left i)) = true.
Proof.
  revert i; induction left as [| left IH]; intro i; simpl; [lia |].
  destruct (stop (char_at s i)) eqn:E; [intros _; exact E |].
  intro H. apply IH. lia.
Qed.

(** With more fuel than the string has characters left, the loop as
    written ends, on the index [scan_index] gives. *)
Lemma for_loop_scan_index (fuel : nat) :
  forall i : nat,
    strlen s - i < fuel ->
    for_loop fuel stop s i = Some (scan_index stop s (strlen s - i) i).
Proof.
  induction fuel as [| fuel IH]; intros i H; [lia |]. simpl.
  destruct (i <? strlen s) eqn:E.
  - apply Nat.ltb_lt in E.
    destruct (strlen s - i) as [| left] eqn:El; [lia |]. simpl.
    destruct (stop (char_at s i)); [reflexivity |].
    rewrite IH by lia. do 2 f_equal. lia.
  - apply Nat.ltb_ge in E.
    replace (strlen s - i) with 0 by lia. reflexivity.
Qed.

End ScanFacts.

Lemma char_at_middle (pre post : cbuf) (c : rchar) :
  char_at (pre ++ c :: post) (length pre) = c.
Proof. unfold char_at. apply nth_middle. Qed.

(** A scan that starts behind [pre], runs over characters [mid] that do
    not stop it and then meets the end of the string or a character
    that stops it, ends right behind [mid]. *)
Lemma scan_index_app (stop : rchar -> bool) (mid : cbuf) :
  forall pre post : cbuf,
    Forall (fun c => stop c = false) mid ->
    (post = [] \/ exists c r, post = c :: r /\ stop c = true) ->
    scan_index stop (pre ++ mid ++ post) (length mid + length post)
               (length pre)
    = length pre + length mid.
Proof.
  induction mid as [| m mid IH]; intros pre post Hmid Hpost; simpl.
  - destruct Hpost as [-> | (c & r & -> & Hc)]; simpl; [lia |].
    rewrite char_at_middle, Hc. lia.
  - inversion Hmid as [| ? ? Hm Hmid']; subst.
    rewrite char_at_middle, Hm.
    replace (pre ++ m :: mid ++ post) with ((pre ++ [m]) ++ mid ++ post)
      by (rewrite <- app_assoc; reflexivity).
    replace (S (length pre)) with (length (pre ++ [m]))
      by (rewrite length_app; simpl; lia).
    rewrite (IH (pre ++ [m]) post Hmid' Hpost).
    rewrite length_app; simpl; lia.
Qed.

Lemma strlen_app_no_NUL (p r : cbuf) :
  ~ In NUL p -> strlen (p ++ r) = length p + strlen r.
Proof.
  induction p as [| c p IH]; simpl; intro H; [reflexivity |].
  destruct (Ascii.eqb c NUL) eqn:E.
  - apply eqb_NUL in E. exfalso. apply H. left. exact E.
  - f_equal. apply IH. intro Hin. apply H. right. exact Hin.
Qed.

(** A line that carries the attribute name is at least as long. *)
Lemma matches_strlen (l : cbuf) : matches l = true -> mclen <= strlen l.
Proof.
  intro H. apply matches_firstn in H.
  rewrite <- (firstn_skipn mclen l), H.
  rewrite (strlen_app_no_NUL _ _ main_class_no_NUL), main_class_length. lia.
Qed.

Section NameBounds.

Variable l : cbuf.
Let i := fst (name_bounds l).
Let j := snd (name_bounds l).

Lemma name_bounds_order : mclen <= i <= j.
Proof.
  subst i j; unfold name_bounds, class_start, class_end; simpl.
  split; apply scan_index_bounds.
Qed.

(** The two scans take at most [strlen(mnfdata)] steps together. *)
Lemma name_bounds_steps : (i - mclen) + (j - i) <= strlen l - mclen.
Proof.
  subst i j; unfold name_bounds, class_start, class_end; simpl.
  pose proof (scan_index_bounds (fun c => negb (isspace c)) l
                (strlen l - mclen) mclen) as H1.
  pose proof (scan_index_bounds isspace l
                (strlen l - class_start l mclen) (class_start l mclen))
    as H2.
  unfold class_start in *. lia.
Qed.

Lemma name_bounds_in_line : mclen <= strlen l -> j <= strlen l.
Proof.
  pose proof name_bounds_steps. pose proof name_bounds_order. lia.
Qed.

(** Every index of the class name lies inside the C string. *)
Lemma name_index_in_string (k : nat) : i <= k < j -> k < strlen l.
Proof.
  pose proof name_bounds_steps. pose proof name_bounds_order. lia.
Qed.

Lemma name_index_not_space (k : nat) :
  i <= k < j -> isspace (char_at l k) = false.
Proof.
  subst i j; unfold name_bounds, class_end; simpl.
  apply scan_index_skipped.
Qed.

Lemma white_before_name (k : nat) :
  mclen <= k < i -> isspace (char_at l k) = true.
Proof.
  subst i; unfold name_bounds, class_start; simpl. intro H.
  apply (scan_index_skipped (fun c => negb (isspace c))) in H.
  apply negb_false_iff. exact H.
Qed.

Lemma name_starts_not_space :
  i < strlen l -> isspace (char_at l i) = false.
Proof.
  subst i; unfold name_bounds, class_start; simpl. intro H.
  apply negb_true_iff.
  apply (scan_index_stops (fun c => negb (isspace c)) l
           (strlen l - mclen) mclen).
  pose proof (scan_index_bounds (fun c => negb (isspace c)) l
                (strlen l - mclen) mclen). lia.
Qed.

Lemma name_ends_at_space :
  j < strlen l -> isspace (char_at l j) = true.
Proof.
  subst i j; unfold name_bounds, class_end; simpl. intro H.
  apply scan_index_stops.
  pose proof (scan_index_bounds isspace l
                (strlen l - class_start l mclen) (class_start l mclen)).
  lia.
Qed.

End NameBounds.

(** ** The class name copied out of a line *)

Lemma In_firstn_nth (n : nat) :
  forall (s : cbuf) (c : rchar),
    In c (firstn n s) -> exists k, k < n /\ k < length s /\ char_at s k = c.
Proof.
  induction n as [| n IH]; intros [| a s] c H; simpl in H; try contradiction.
  destruct H as [-> | H].
  - exists 0. simpl. repeat split; lia.
  - destruct (IH s c H) as (k & Hk & Hlen & Hc).
    exists (S k). simpl. repeat split; try lia. exact Hc.
Qed.

Lemma In_memcpy (from len : nat) :
  forall (s : cbuf) (c : rchar),
    In c (memcpy s from len) ->
    exists k, from <= k < from + len /\ k < length s /\ char_at s k = c.
Proof.
  unfold memcpy.
  induction from as [| from IH]; intros s c H.
  - simpl in H. destruct (In_firstn_nth _ _ _ H) as (k & Hk & Hlen & Hc).
    exists k. repeat split; try lia. exact Hc.
  - destruct s as [| a s]; simpl in H.
    + destruct len; contradiction.
    + destruct (IH s c H) as (k & Hk & Hlen & Hc).
      exists (S k). simpl. repeat split; try lia. exact Hc.
Qed.

Lemma class_name_length (l : cbuf) :
  length (class_name l) = snd (name_bounds l) - fst (name_bounds l).
Proof.
  unfold class_name, memcpy. rewrite length_firstn, length_skipn.
  pose proof (name_bounds_steps l). pose proof (name_bounds_order l).
  pose proof (strlen_le_length l). lia.
Qed.

Lemma class_name_chars (l : cbuf) (c : rchar) :
  In c (class_name l) -> isspace c = false /\ c <> NUL.
Proof.
  intro H. apply In_memcpy in H. destruct H as (k & Hk & _ & <-).
  assert (Hk' : fst (name_bounds l) <= k < snd (name_bounds l)).
  { pose proof (name_bounds_order l). lia. }
  split.
  - apply name_index_not_space. exact Hk'.
  - apply strlen_char_not_NUL. apply name_index_in_string. exact Hk'.
Qed.

(** ** The loop over the lines *)

Lemma read_loop_skip (bfr : nat) (name : cbuf) (pre rest : list cbuf) :
  forall w : world,
    Forall no_match pre ->
    read_loop bfr name mclen (pre ++ rest) w
    = read_loop bfr name mclen rest (deliver pre w).
Proof.
  induction pre as [| l pre IH]; intros w H.
  - destruct w; unfold deliver; simpl. rewrite app_nil_r. reflexivity.
  - inversion H as [| ? ? Hl Hpre]; subst. simpl.
    unfold no_match, matches in Hl. rewrite Hl. simpl.
    rewrite (IH _ Hpre). f_equal.
    unfold deliver, fgets_line; simpl. f_equal; [lia |].
    rewrite <- app_assoc. reflexivity.
Qed.

Lemma read_loop_no_match (bfr : nat) (name : cbuf) (ls : list cbuf)
      (w : world) :
  Forall no_match ls ->
  read_loop bfr name mclen ls w
  = (Returned rnull, HEAP_FREE_DATA bfr (fclose (fgets_eof (deliver ls w)))).
Proof.
  intro H. rewrite <- (app_nil_r ls) at 1.
  rewrite (read_loop_skip bfr name ls [] w H). reflexivity.
Qed.

Lemma read_loop_match (bfr : nat) (name : cbuf) (pre post : list cbuf)
      (l : cbuf) (w : world) :
  Forall no_match pre -> matches l = true ->
  read_loop bfr name mclen (pre ++ l :: post) w
  = on_match bfr name l mclen (fgets_line l (deliver pre w)).
Proof.
  intros Hpre Hl. rewrite (read_loop_skip bfr name pre (l :: post) w Hpre).
  simpl. unfold matches in Hl. rewrite Hl. reflexivity.
Qed.

(** A sequence of lines has a first line that carries the attribute
    name, or none. *)
Lemma first_match_split (ls : list cbuf) :
  Forall no_match ls \/
  exists pre l post,
    ls = pre ++ l :: post /\ Forall no_match pre /\ matches l = true.
Proof.
  induction ls as [| a ls IH]; [left; constructor |].
  destruct (matches a) eqn:E.
  - right. exists [], a, ls. repeat split; [constructor | exact E].
  - destruct IH as [IH | (pre & l & post & -> & Hpre & Hl)].
    + left. constructor; assumption.
    + right. exists (a :: pre), l, post.
      repeat split; [constructor; assumption | exact Hl].
Qed.

(** The first match is unique. *)
Lemma first_match_unique (pre pre' post post' : list cbuf) (l l' : cbuf) :
  pre ++ l :: post = pre' ++ l' :: post' ->
  Forall no_match pre -> matches l = true ->
  Forall no_match pre' -> matches l' = true ->
  pre = pre' /\ l = l' /\ post = post'.
Proof.
  revert pre'; induction pre as [| a pre IH]; intros [| a' pre'] E H1 H2 H3 H4;
    simpl in E.
  - injection E as -> ->. auto.
  - injection E as -> _. inversion H3; subst.
    unfold no_match in *. congruence.
  - injection E as -> _. inversion H1; subst.
    unfold no_match in *. congruence.
  - injection E as -> E. inversion H1; inversion H3; subst.
    destruct (IH pre' E) as (-> & -> & ->); auto.
Qed.

Lemma no_match_not_split (pre post : list cbuf) (l : cbuf) :
  Forall no_match (pre ++ l :: post) -> matches l = true -> False.
Proof.
  intros H Hl. apply Forall_app in H. destruct H as [_ H].
  inversion H; subst. unfold no_match in *. congruence.
Qed.

Lemma remove_block_second (bfr n : nat) (h : list nat) :
  remove_block bfr (n :: bfr :: h) = n :: h.
Proof.
  simpl. destruct (Nat.eqb n bfr) eqn:E.
  - apply Nat.eqb_eq in E. subst. reflexivity.
  - rewrite Nat.eqb_refl. reflexivity.
Qed.

(** The four ways through [manifest_get_main()], each with the outcome
    and the world it leaves. *)
Lemma manifest_get_main_paths (bfr : nat) (fs : file_system) (name : cbuf)
      (w : world) :
  (fs name = None /\
   manifest_get_main bfr fs name w = (Returned rnull, w))
  \/
  (exists ls,
      fs name = Some ls /\ Forall no_match ls /\
      manifest_get_main bfr fs name w
      = (Returned rnull,
         mkWorld (open_handles w) (S (length ls + fgets_calls w))
                 (delivered w ++ ls) (heap w) (errlog w)))
  \/
  (exists pre l post,
      fs name = Some (pre ++ l :: post) /\
      Forall no_match pre /\ matches l = true /\
      fst (name_bounds l) <> snd (name_bounds l) /\
      manifest_get_main bfr fs name w
      = (Returned (Some (class_name l)),
         mkWorld (open_handles w) (S (length pre + fgets_calls w))
                 (delivered w ++ pre ++ [l])
                 ((length (class_name l) + 1) :: heap w) (errlog w)))
  \/
  (exists pre l post,
      fs name = Some (pre ++ l :: post) /\
      Forall no_match pre /\ matches l = true /\
      fst (name_bounds l) = snd (name_bounds l) /\
      manifest_get_main bfr fs name w
      = (Exited EXIT_MANIFEST_JAR,
         mkWorld (open_handles w) (S (length pre + fgets_calls w))
                 (delivered w ++ pre ++ [l]) (heap w)
                 (errlog w ++ [missing_class_name name]))).
Proof.
  unfold manifest_get_main, fopen.
  destruct (fs name) as [ls |] eqn:Efs; [| left; auto].
  right. fold mclen.
  destruct (first_match_split ls) as [Hno | (pre & l & post & -> & Hpre & Hl)].
  - left. exists ls. repeat split; auto.
    rewrite (read_loop_no_match _ _ _ _ Hno).
    unfold HEAP_FREE_DATA, fclose, fgets_eof, deliver, HEAP_GET_DATA; simpl.
    rewrite Nat.eqb_refl. reflexivity.
  - right. rewrite (read_loop_match _ _ _ _ _ _ Hpre Hl).
    unfold on_match.
    change (class_start l mclen) with (fst (name_bounds l)).
    change (class_end l (fst (name_bounds l))) with (snd (name_bounds l)).
    destruct (Nat.eqb (fst (name_bounds l)) (snd (name_bounds l))) eqn:E;
      simpl.
    + right. exists pre, l, post. apply Nat.eqb_eq in E.
      repeat split; auto.
      unfold sysErrMsg, HEAP_FREE_DATA, fclose, fgets_line, deliver,
        HEAP_GET_DATA; simpl.
      rewrite Nat.eqb_refl, <- app_assoc. reflexivity.
    + left. exists pre, l, post. apply Nat.eqb_neq in E.
      repeat split; auto.
      rewrite class_name_length.
      unfold HEAP_FREE_DATA, fclose, fgets_line, deliver, HEAP_GET_DATA;
        cbn [open_handles fgets_calls delivered heap errlog pred].
      rewrite remove_block_second, <- app_assoc. reflexivity.
Qed.

(** ** Lines of the form name, white space, value, white space *)

Lemma skipn_length_app (a b : cbuf) : skipn (length a) (a ++ b) = b.
Proof. induction a as [| c a IH]; simpl; auto. Qed.

Lemma firstn_length_app (a b : cbuf) : firstn (length a) (a ++ b) = a.
Proof. induction a as [| c a IH]; simpl; [| rewrite IH]; reflexivity. Qed.

Lemma white_not_NUL (ws : cbuf) :
  Forall (fun c => isspace c = true) ws -> ~ In NUL ws.
Proof.
  intros H Hin. rewrite Forall_forall in H. apply H in Hin.
  rewrite isspace_NUL in Hin. discriminate.
Qed.

Section AttributeLine.

Variables ws1 value ws2 : cbuf.
Hypothesis ws1_white : Forall (fun c => isspace c = true) ws1.
Hypothesis ws2_white : Forall (fun c => isspace c = true) ws2.
Hypothesis value_not_empty : value <> [].
Hypothesis value_not_white : Forall (fun c => isspace c = false) value.
Hypothesis value_no_NUL : ~ In NUL value.

Let l : cbuf := JVMCFG_JARFILE_MANIFEST_MAIN_CLASS ++ ws1 ++ value ++ ws2.

Lemma attribute_line_matches : matches l = true.
Proof. apply matches_firstn. reflexivity. Qed.

Lemma attribute_line_strlen :
  strlen l = mclen + (length ws1 + (length value + length ws2)).
Proof.
  subst l. rewrite strlen_no_NUL.
  - rewrite !length_app. reflexivity.
  - rewrite !in_app_iff. intros [H | [H | [H | H]]].
    + exact (main_class_no_NUL H).
    + exact (white_not_NUL ws1 ws1_white H).
    + exact (value_no_NUL H).
    + exact (white_not_NUL ws2 ws2_white H).
Qed.

Lemma attribute_line_start : fst (name_bounds l) = mclen + length ws1.
Proof.
  unfold name_bounds, class_start; cbn [fst].
  rewrite attribute_line_strlen.
  replace (mclen + (length ws1 + (length value + length ws2)) - mclen)
    with (length ws1 + length (value ++ ws2))
    by (rewrite length_app; lia).
  subst l. rewrite <- main_class_length. apply scan_index_app.
  - apply Forall_impl with (2 := ws1_white).
    intros c Hc. rewrite Hc. reflexivity.
  - right. destruct value as [| c r]; [contradiction |].
    exists c, (r ++ ws2). split; [reflexivity |].
    inversion value_not_white as [| ? ? Hc _]; subst.
    rewrite Hc. reflexivity.
Qed.

Lemma attribute_line_end :
  snd (name_bounds l) = mclen + length ws1 + length value.
Proof.
  assert (Hi := attribute_line_start).
  unfold name_bounds in *; cbn [fst snd] in *.
  rewrite Hi. unfold class_end. rewrite attribute_line_strlen.
  replace (mclen + (length ws1 + (length value + length ws2))
           - (mclen + length ws1))
    with (length value + length ws2) by lia.
  subst l.
  replace (mclen + length ws1)
    with (length (JVMCFG_JARFILE_MANIFEST_MAIN_CLASS ++ ws1))
    by (rewrite length_app, main_class_length; reflexivity).
  rewrite app_assoc. apply scan_index_app.
  - exact value_not_white.
  - destruct ws2 as [| c r]; [left; reflexivity |].
    right. exists c, r. split; [reflexivity |].
    inversion ws2_white; assumption.
Qed.

(** The characters copied are the value, without the white space
    around it. *)
Lemma attribute_line_class_name : class_name l = value.
Proof.
  unfold class_name, memcpy.
  rewrite attribute_line_end, attribute_line_start.
  replace (mclen + length ws1 + length value - (mclen + length ws1))
    with (length value) by lia.
  subst l.
  replace (mclen + length ws1)
    with (length (JVMCFG_JARFILE_MANIFEST_MAIN_CLASS ++ ws1))
    by (rewrite length_app, main_class_length; reflexivity).
  rewrite app_assoc, skipn_length_app. apply firstn_length_app.
Qed.

Lemma attribute_line_bounds_differ :
  fst (name_bounds l) <> snd (name_bounds l).
Proof.
  rewrite attribute_line_end, attribute_line_start.
  destruct value; [contradiction | simpl; lia].
Qed.

End AttributeLine.

(** ** The paths, one by one *)

Lemma manifest_get_main_no_file (bfr : nat) (fs : file_system) (name : cbuf)
      (w : world) :
  fs name = None -> manifest_get_main bfr fs name w = (Returned rnull, w).
Proof.
  intro H. unfold manifest_get_main, fopen. rewrite H. reflexivity.
Qed.

Lemma manifest_get_main_no_match (bfr : nat) (fs : file_system) (name : cbuf)
      (w : world) (ls : list cbuf) :
  fs name = Some ls -> Forall no_match ls ->
  manifest_get_main bfr fs name w
  = (Returned rnull,
     mkWorld (open_handles w) (S (length ls + fgets_calls w))
             (delivered w ++ ls) (heap w) (errlog w)).
Proof.
  intros Hfs Hno.
  destruct (manifest_get_main_paths bfr fs name w)
    as [[H _] | [(ls' & H & _ & R) | [(pre & l & post & H & _ & Hl & _)
                                     | (pre & l & post & H & _ & Hl & _)]]];
    rewrite Hfs in H; try discriminate; injection H as H; subst.
  - exact R.
  - destruct (no_match_not_split _ _ _ Hno Hl).
  - destruct (no_match_not_split _ _ _ Hno Hl).
Qed.

Lemma manifest_get_main_found (bfr : nat) (fs : file_system) (name : cbuf)
      (w : world) (pre post : list cbuf) (l : cbuf) :
  fs name = Some (pre ++ l :: post) ->
  Forall no_match pre -> matches l = true ->
  fst (name_bounds l) <> snd (name_bounds l) ->
  manifest_get_main bfr fs name w
  = (Returned (Some (class_name l)),
     mkWorld (open_handles w) (S (length pre + fgets_calls w))
             (delivered w ++ pre ++ [l])
             ((length (class_name l) + 1) :: heap w) (errlog w)).
Proof.
  intros Hfs Hpre Hl Hij.
  destruct (manifest_get_main_paths bfr fs name w)
    as [[H _] | [(ls' & H & Hno & _)
                | [(pre' & l' & post' & H & Hpre' & Hl' & _ & R)
                  | (pre' & l' & post' & H & Hpre' & Hl' & E & _)]]];
    rewrite Hfs in H; try discriminate; injection H as H.
  - subst ls'. destruct (no_match_not_split _ _ _ Hno Hl).
  - destruct (first_match_unique _ _ _ _ _ _ H Hpre Hl Hpre' Hl')
      as (-> & -> & ->). exact R.
  - destruct (first_match_unique _ _ _ _ _ _ H Hpre Hl Hpre' Hl')
      as (-> & -> & ->). contradiction.
Qed.

Lemma manifest_get_main_empty (bfr : nat) (fs : file_system) (name : cbuf)
      (w : world) (pre post : list cbuf) (l : cbuf) :
  fs name = Some (pre ++ l :: post) ->
  Forall no_match pre -> matches l = true ->
  fst (name_bounds l) = snd (name_bounds l) ->
  manifest_get_main bfr fs name w
  = (Exited EXIT_MANIFEST_JAR,
     mkWorld (open_handles w) (S (length pre + fgets_calls w))
             (delivered w ++ pre ++ [l]) (heap w)
             (errlog w ++ [missing_class_name name])).
Proof.
  intros Hfs Hpre Hl Hij.
  destruct (manifest_get_main_paths bfr fs name w)
    as [[H _] | [(ls' & H & Hno & _)
                | [(pre' & l' & post' & H & Hpre' & Hl' & E & _)
                  | (pre' & l' & post' & H & Hpre' & Hl' & _ & R)]]];
    rewrite Hfs in H; try discriminate; injection H as H.
  - subst ls'. destruct (no_match_not_split _ _ _ Hno Hl).
  - destruct (first_match_unique _ _ _ _ _ _ H Hpre Hl Hpre' Hl')
      as (-> & -> & ->). contradiction.
  - destruct (first_match_unique _ _ _ _ _ _ H Hpre Hl Hpre' Hl')
      as (-> & -> & ->). exact R.
Qed.

Lemma class_name_empty_iff (l : cbuf) :
  class_name l = [] <-> fst (name_bounds l) = snd (name_bounds l).
Proof.
  pose proof (class_name_length l) as Hlen.
  pose proof (name_bounds_order l) as Hord.
  split; intro H.
  - rewrite H in Hlen. cbn [length] in Hlen. cbv zeta in Hord. lia.
  - apply length_zero_iff_nil. lia.
Qed.

(** A returned class name comes from the first line that carries the
    attribute name. *)
Lemma returned_name_origin (bfr : nat) (fs : file_system) (name : cbuf)
      (w : world) (v : cbuf) :
  fst (manifest_get_main bfr fs name w) = Returned (Some v) ->
  exists pre l post,
    fs name = Some (pre ++ l :: post) /\
    Forall no_match pre /\ matches l = true /\
    fst (name_bounds l) <> snd (name_bounds l) /\ v = class_name l /\
    snd (manifest_get_main bfr fs name w)
    = mkWorld (open_handles w) (S (length pre + fgets_calls w))
              (delivered w ++ pre ++ [l])
              ((length v + 1) :: heap w) (errlog w).
Proof.
  intro Hv.
  destruct (manifest_get_main_paths bfr fs name w)
    as [[_ R] | [(ls' & _ & _ & R)
                | [(pre & l & post & H & Hpre & Hl & E & R)
                  | (pre & l & post & _ & _ & _ & _ & R)]]];
    rewrite R in Hv |- *; simpl in Hv; try discriminate.
  injection Hv as <-. exists pre, l, post. repeat split; auto.
Qed.

(** ** The examples of the specification, run *)

Example scan_one_space :
  fst (scan [line "Main-Class: foo.Bar"])
  = Returned (Some (list_ascii_of_string "foo.Bar")).
Proof. reflexivity. Qed.

Example scan_no_space :
  fst (scan [line "Main-Class:foo.Bar"])
  = Returned (Some (list_ascii_of_string "foo.Bar")).
Proof. reflexivity. Qed.

Example scan_more_space :
  fst (scan [line "Main-Class:   foo.Bar   "])
  = Returned (Some (list_ascii_of_string "foo.Bar")).
Proof. reflexivity. Qed.

Example scan_other_attribute :
  fst (scan [line "Other-Attr: x"]) = Returned rnull.
Proof. reflexivity. Qed.

Example scan_second_line :
  fst (scan [line "Other: y"; line "Main-Class: foo.Bar"])
  = Returned (Some (list_ascii_of_string "foo.Bar")).
Proof. reflexivity. Qed.

Example scan_first_of_two :
  fst (scan [line "Main-Class: first.Class"; line "Main-Class: second.Class"])
  = Returned (Some (list_ascii_of_string "first.Class")).
Proof. reflexivity. Qed.

Example scan_no_lines : fst (scan []) = Returned rnull.
Proof. reflexivity. Qed.

Example scan_empty_value :
  fst (scan [line "Main-Class: "]) = Exited EXIT_MANIFEST_JAR.
Proof. reflexivity. Qed.

(** A NUL byte in the file ends the C string the code sees. *)
Example scan_NUL_in_value :
  fst (scan [list_ascii_of_string "Main-Class: a" ++ NUL
               :: list_ascii_of_string "b" ++ [LF]])
  = Returned (Some (list_ascii_of_string "a")).
Proof. reflexivity. Qed.

(** ** Properties of the scan *)

(** C1, as stated, does not hold: on the manifest whose only line is
    ["Main-Class:"] and a newline, the value is empty ([i == j]) and the
    call does not come back to its caller with a result: it prints a
    message with [sysErrMsg()] and ends the process with
    [exit_jvm(EXIT_MANIFEST_JAR)]. *)
Lemma C1_counterexample :
  let l := line "Main-Class:" in
  matches l = true /\
  fst (name_bounds l) = snd (name_bounds l) /\
  fst (scan [l]) = Exited EXIT_MANIFEST_JAR /\
  errlog (snd (scan [l])) = [missing_class_name mnf] /\
  ~ ((exists p, fst (scan [l]) = Returned p) /\ errlog (snd (scan [l])) = []).
Proof.
  cbv zeta. repeat split; try reflexivity.
  intros [[p H] _]. vm_compute in H. discriminate H.
Qed.

(** C1, amended: when the first line that carries the attribute name
    has an empty value ([i == j]), the call closes the file, frees the
    line buffer, prints "Missing class name in manifest file" with the
    file name through [sysErrMsg()] and ends the process with
    [exit_jvm(EXIT_MANIFEST_JAR)]; [fgets()] has delivered the lines up
    to that line and no line after it. *)
Theorem C1_empty_value_exits (bfr : nat) (fs : file_system) (name : cbuf)
        (w : world) (pre post : list cbuf) (l : cbuf) :
  fs name = Some (pre ++ l :: post) ->
  Forall no_match pre -> matches l = true ->
  fst (name_bounds l) = snd (name_bounds l) ->
  fst (manifest_get_main bfr fs name w) = Exited EXIT_MANIFEST_JAR /\
  errlog (snd (manifest_get_main bfr fs name w))
  = errlog w ++ [missing_class_name name] /\
  delivered (snd (manifest_get_main bfr fs name w))
  = delivered w ++ pre ++ [l] /\
  fgets_calls (snd (manifest_get_main bfr fs name w))
  = fgets_calls w + length pre + 1 /\
  open_handles (snd (manifest_get_main bfr fs name w)) = open_handles w /\
  heap (snd (manifest_get_main bfr fs name w)) = heap w.
Proof.
  intros Hfs Hpre Hl Hij.
  rewrite (manifest_get_main_empty bfr fs name w pre post l Hfs Hpre Hl Hij).
  simpl. repeat split; try reflexivity. lia.
Qed.

Lemma C1_empty_value_exits_witness :
  let ls := [line "Created-By: 1.5"; line "Main-Class:  ";
             line "Main-Class: foo.Bar"] in
  fst (scan ls) = Exited EXIT_MANIFEST_JAR /\
  errlog (snd (scan ls)) = [missing_class_name mnf] /\
  delivered (snd (scan ls)) = [line "Created-By: 1.5"; line "Main-Class:  "] /\
  fgets_calls (snd (scan ls)) = 2 /\
  open_handles (snd (scan ls)) = 0 /\
  heap (snd (scan ls)) = [].
Proof.
  exact (C1_empty_value_exits 1024
           (one_file [line "Created-By: 1.5"; line "Main-Class:  ";
                      line "Main-Class: foo.Bar"])
           mnf initial_world [line "Created-By: 1.5"]
           [line "Main-Class: foo.Bar"] (line "Main-Class:  ")
           eq_refl
           (Forall_cons _ (eq_refl : no_match (line "Created-By: 1.5"))
                        (Forall_nil _))
           eq_refl eq_refl).
Defined.

(** C2, as stated, does not hold: for a manifest that cannot be opened
    and for a manifest without lines the call gives the same value, the
    null pointer [rnull]; the report of a missing attribute is a null
    value, and it is the report of an unavailable source too. *)
Lemma C2_counterexample :
  fst (manifest_get_main 1024 no_file mnf initial_world) = Returned rnull /\
  fst (manifest_get_main 1024 (one_file []) mnf initial_world)
  = Returned rnull /\
  no_file mnf = None /\ one_file [] mnf = Some [] /\
  ~ (fst (manifest_get_main 1024 no_file mnf initial_world)
     <> fst (manifest_get_main 1024 (one_file []) mnf initial_world)).
Proof.
  repeat split; try reflexivity.
  intro H. apply H. reflexivity.
Qed.

(** C2, amended: the call ends in one of three ways that differ from
    each other.  It returns a heap string, a block of its own of one
    byte more than the string, exactly when a first line carries the
    attribute name with a value that is not empty, and the string is
    that value; it ends the process with [EXIT_MANIFEST_JAR] exactly
    when that line has an empty value; it returns the null pointer
    [rnull] exactly when no line carries the attribute name or the file
    cannot be opened, two cases the returned value does not tell
    apart. *)
Theorem C2_outcomes (bfr : nat) (fs : file_system) (name : cbuf)
        (w : world) :
  (forall v,
      fst (manifest_get_main bfr fs name w) = Returned (Some v) <->
      exists pre l post,
        fs name = Some (pre ++ l :: post) /\ Forall no_match pre /\
        matches l = true /\ v = class_name l /\ v <> []) /\
  (forall v,
      fst (manifest_get_main bfr fs name w) = Returned (Some v) ->
      heap (snd (manifest_get_main bfr fs name w))
      = (length v + 1) :: heap w) /\
  (forall code,
      fst (manifest_get_main bfr fs name w) = Exited code <->
      code = EXIT_MANIFEST_JAR /\
      exists pre l post,
        fs name = Some (pre ++ l :: post) /\ Forall no_match pre /\
        matches l = true /\ class_name l = []) /\
  (fst (manifest_get_main bfr fs name w) = Returned rnull <->
   fs name = None \/ exists ls, fs name = Some ls /\ Forall no_match ls).
Proof.
  repeat split.
  - intro Hv. apply returned_name_origin in Hv.
    destruct Hv as (pre & l & post & Hfs & Hpre & Hl & Hij & -> & _).
    exists pre, l, post. repeat split; auto.
    intro E. apply class_name_empty_iff in E. contradiction.
  - intros (pre & l & post & Hfs & Hpre & Hl & -> & Hne).
    rewrite (manifest_get_main_found bfr fs name w pre post l Hfs Hpre Hl);
      [reflexivity |].
    intro E. apply class_name_empty_iff in E. contradiction.
  - intros v Hv. apply returned_name_origin in Hv.
    destruct Hv as (pre & l & post & _ & _ & _ & _ & _ & ->). reflexivity.
  - destruct code. reflexivity.
  - destruct (manifest_get_main_paths bfr fs name w)
      as [[_ R] | [(ls' & _ & _ & R)
                  | [(pre & l & post & _ & _ & _ & _ & R)
                    | (pre & l & post & Hfs & Hpre & Hl & E & R)]]];
      rewrite R in H; simpl in H; try discriminate.
    exists pre, l, post. repeat split; auto.
    apply class_name_empty_iff. exact E.
  - intros (-> & pre & l & post & Hfs & Hpre & Hl & E).
    apply class_name_empty_iff in E.
    rewrite (manifest_get_main_empty bfr fs name w pre post l Hfs Hpre Hl E).
    reflexivity.
  - intro H.
    destruct (manifest_get_main_paths bfr fs name w)
      as [[Hfs _] | [(ls' & Hfs & Hno & _)
                    | [(pre & l & post & _ & _ & _ & _ & R)
                      | (pre & l & post & _ & _ & _ & _ & R)]]];
      try (rewrite R in H; simpl in H; discriminate).
    + left. exact Hfs.
    + right. exists ls'. split; assumption.
  - intros [Hfs | (ls & Hfs & Hno)].
    + rewrite (manifest_get_main_no_file bfr fs name w Hfs). reflexivity.
    + rewrite (manifest_get_main_no_match bfr fs name w ls Hfs Hno).
      reflexivity.
Qed.

(** C3: when some line carries the attribute name, the first such line
    alone decides the result; [fgets()] delivers the lines up to that
    line and is not called again, so the lines behind it, matching or
    not, have no effect: any other tail gives the same outcome and the
    same world. *)
Theorem C3_first_match_decides (bfr : nat) (fs : file_system) (name : cbuf)
        (w : world) (pre post : list cbuf) (l : cbuf) :
  fs name = Some (pre ++ l :: post) ->
  Forall no_match pre -> matches l = true ->
  fst (manifest_get_main bfr fs name w) = line_outcome l /\
  delivered (snd (manifest_get_main bfr fs name w))
  = delivered w ++ pre ++ [l] /\
  fgets_calls (snd (manifest_get_main bfr fs name w))
  = fgets_calls w + length pre + 1 /\
  (forall (fs' : file_system) (post' : list cbuf),
      fs' name = Some (pre ++ l :: post') ->
      manifest_get_main bfr fs' name w = manifest_get_main bfr fs name w).
Proof.
  intros Hfs Hpre Hl. unfold line_outcome.
  destruct (Nat.eqb (fst (name_bounds l)) (snd (name_bounds l))) eqn:E.
  - apply Nat.eqb_eq in E.
    rewrite (manifest_get_main_empty bfr fs name w pre post l Hfs Hpre Hl E).
    simpl. repeat split; try reflexivity; try lia.
    intros fs' post' Hfs'.
    apply (manifest_get_main_empty bfr fs' name w pre post' l Hfs' Hpre Hl E).
  - apply Nat.eqb_neq in E.
    rewrite (manifest_get_main_found bfr fs name w pre post l Hfs Hpre Hl E).
    simpl. repeat split; try reflexivity; try lia.
    intros fs' post' Hfs'.
    apply (manifest_get_main_found bfr fs' name w pre post' l Hfs' Hpre Hl E).
Qed.

Lemma C3_first_match_decides_witness :
  let ls := [line "Other: y"; line "Main-Class: first.Class";
             line "Main-Class: second.Class"] in
  fst (scan ls) = line_outcome (line "Main-Class: first.Class") /\
  delivered (snd (scan ls))
  = [line "Other: y"; line "Main-Class: first.Class"] /\
  fgets_calls (snd (scan ls)) = 2 /\
  (forall (fs' : file_system) (post' : list cbuf),
      fs' mnf = Some ([line "Other: y"]
                        ++ line "Main-Class: first.Class" :: post') ->
      manifest_get_main 1024 fs' mnf initial_world = scan ls).
Proof.
  exact (C3_first_match_decides 1024
           (one_file [line "Other: y"; line "Main-Class: first.Class";
                      line "Main-Class: second.Class"])
           mnf initial_world [line "Other: y"]
           [line "Main-Class: second.Class"]
           (line "Main-Class: first.Class")
           eq_refl
           (Forall_cons _ (eq_refl : no_match (line "Other: y"))
                        (Forall_nil _))
           eq_refl).
Defined.

(** C4: for a manifest of one line made of the attribute name, any run
    of white space (none too), a value and any run of white space, where
    the value is a C string that is not empty and holds no white space,
    the call returns the value, and nothing of the white space around
    it. *)
Theorem C4_trimmed_value_found (bfr : nat) (fs : file_system) (name : cbuf)
        (w : world) (ws1 value ws2 : cbuf) :
  fs name = Some [JVMCFG_JARFILE_MANIFEST_MAIN_CLASS ++ ws1 ++ value ++ ws2] ->
  Forall (fun c => isspace c = true) ws1 ->
  Forall (fun c => isspace c = true) ws2 ->
  value <> [] ->
  Forall (fun c => isspace c = false) value ->
  ~ In NUL value ->
  fst (manifest_get_main bfr fs name w) = Returned (Some value).
Proof.
  intros Hfs H1 H2 Hne Hv Hnul.
  rewrite (manifest_get_main_found bfr fs name w [] []
             (JVMCFG_JARFILE_MANIFEST_MAIN_CLASS ++ ws1 ++ value ++ ws2)).
  - cbn [fst]. rewrite attribute_line_class_name; auto.
  - exact Hfs.
  - constructor.
  - apply attribute_line_matches.
  - apply attribute_line_bounds_differ; auto.
Qed.

Lemma C4_trimmed_value_found_witness :
  fst (manifest_get_main 1024
         (one_file [JVMCFG_JARFILE_MANIFEST_MAIN_CLASS ++ [SP; HT; SP]
                      ++ list_ascii_of_string "foo.Bar" ++ [SP; CR; LF]])
         mnf initial_world)
  = Returned (Some (list_ascii_of_string "foo.Bar")).
Proof.
  apply (C4_trimmed_value_found 1024
           (one_file [JVMCFG_JARFILE_MANIFEST_MAIN_CLASS ++ [SP; HT; SP]
                        ++ list_ascii_of_string "foo.Bar" ++ [SP; CR; LF]])
           mnf initial_world [SP; HT; SP]
           (list_ascii_of_string "foo.Bar") [SP; CR; LF]).
  - reflexivity.
  - repeat constructor.
  - repeat constructor.
  - discriminate.
  - repeat constructor.
  - simpl. intuition discriminate.
Defined.

(** C5: a line passes the test of line 110 if and only if its first
    [strlen("Main-Class:")] bytes are the bytes of ["Main-Class:"]; a
    line that is shorter, or differs from the name in a byte, or only
    in the case of a letter, or starts with white space, does not pass,
    and a line that does not pass is skipped: the loop goes on with the
    next line. *)
Theorem C5_prefix_match (l : cbuf) :
  (matches l = true <->
   firstn (length JVMCFG_JARFILE_MANIFEST_MAIN_CLASS) l
   = JVMCFG_JARFILE_MANIFEST_MAIN_CLASS) /\
  (length l < length JVMCFG_JARFILE_MANIFEST_MAIN_CLASS ->
   matches l = false) /\
  (forall k, k < length JVMCFG_JARFILE_MANIFEST_MAIN_CLASS ->
             char_at l k <> char_at JVMCFG_JARFILE_MANIFEST_MAIN_CLASS k ->
             matches l = false) /\
  (map tolower (firstn (length JVMCFG_JARFILE_MANIFEST_MAIN_CLASS) l)
   = map tolower JVMCFG_JARFILE_MANIFEST_MAIN_CLASS ->
   firstn (length JVMCFG_JARFILE_MANIFEST_MAIN_CLASS) l
   <> JVMCFG_JARFILE_MANIFEST_MAIN_CLASS ->
   matches l = false) /\
  (forall c rest, l = c :: rest -> isspace c = true -> matches l = false) /\
  (forall bfr name rest w,
      matches l = false ->
      read_loop bfr name mclen (l :: rest) w
      = read_loop bfr name mclen rest (fgets_line l w)).
Proof.
  assert (Hiff : matches l = true <->
                 firstn (length JVMCFG_JARFILE_MANIFEST_MAIN_CLASS) l
                 = JVMCFG_JARFILE_MANIFEST_MAIN_CLASS).
  { rewrite main_class_length. apply matches_firstn. }
  assert (Hnot : firstn (length JVMCFG_JARFILE_MANIFEST_MAIN_CLASS) l
                 <> JVMCFG_JARFILE_MANIFEST_MAIN_CLASS ->
                 matches l = false).
  { intro H. destruct (matches l) eqn:E; [| reflexivity].
    exfalso. apply H. apply Hiff. reflexivity. }
  split; [exact Hiff |]. split; [| split; [| split; [| split]]].
  - intro Hlen. apply Hnot. intro E.
    apply (f_equal (@length rchar)) in E. rewrite length_firstn in E. lia.
  - intros k Hk Hdiff. apply Hnot. intro E. apply Hdiff.
    rewrite <- E. unfold char_at. rewrite nth_firstn.
    apply Nat.ltb_lt in Hk. rewrite Hk. reflexivity.
  - intros _ H. apply Hnot. exact H.
  - intros c rest -> Hc. apply Hnot. intro E. simpl in E.
    injection E as E _. subst c. discriminate Hc.
  - intros bfr name rest w H. simpl. unfold matches in H. rewrite H.
    reflexivity.
Qed.

Example lower_case_name_skipped :
  matches (line "main-class: foo.Bar") = false /\
  matches (line "MAIN-CLASS: foo.Bar") = false.
Proof. split; reflexivity. Qed.

Example indented_name_skipped : matches (line " Main-Class: foo.Bar") = false.
Proof. reflexivity. Qed.

Example short_line_skipped : matches (line "Main-Class") = false.
Proof. reflexivity. Qed.

(** C6: when no line of the manifest carries the attribute name, and so
    for the manifest without lines, the call returns [rnull]. *)
Theorem C6_no_match_not_found (bfr : nat) (fs : file_system) (name : cbuf)
        (w : world) (ls : list cbuf) :
  fs name = Some ls -> Forall no_match ls ->
  fst (manifest_get_main bfr fs name w) = Returned rnull.
Proof.
  intros Hfs Hno.
  rewrite (manifest_get_main_no_match bfr fs name w ls Hfs Hno). reflexivity.
Qed.

Lemma C6_no_match_not_found_witness :
  fst (scan []) = Returned rnull /\
  fst (scan [line "Other-Attr: x"; line "Class-Path: a.jar"]) = Returned rnull.
Proof.
  split.
  - exact (C6_no_match_not_found 1024 (one_file []) mnf initial_world []
             eq_refl (Forall_nil _)).
  - exact (C6_no_match_not_found 1024
             (one_file [line "Other-Attr: x"; line "Class-Path: a.jar"])
             mnf initial_world
             [line "Other-Attr: x"; line "Class-Path: a.jar"] eq_refl
             (Forall_cons _ (eq_refl : no_match (line "Other-Attr: x"))
                (Forall_cons _ (eq_refl : no_match (line "Class-Path: a.jar"))
                   (Forall_nil _)))).
Defined.

(** With allocations that succeed the call leaves no file handle open,
    whichever way it ends: with a class name, with [rnull] or with
    [exit_jvm()], it has closed the handle it opened, and when
    [fopen()] fails there is none to close. *)
Lemma handle_released_on_endless_heap (bfr : nat) (fs : file_system)
      (name : cbuf) (w : world) :
  open_handles (snd (manifest_get_main bfr fs name w)) = open_handles w.
Proof.
  destruct (manifest_get_main_paths bfr fs name w)
    as [[_ R] | [(ls' & _ & _ & R)
                | [(pre & l & post & _ & _ & _ & _ & R)
                  | (pre & l & post & _ & _ & _ & _ & R)]]];
    rewrite R; reflexivity.
Qed.

(** *** The heap that runs out *)

Lemma room_read_loop_skip (room : heap_room) (bfr : nat) (name : cbuf)
      (pre rest : list cbuf) :
  forall w : world,
    Forall no_match pre ->
    ManifestRoom.read_loop room bfr name mclen (pre ++ rest) w
    = ManifestRoom.read_loop room bfr name mclen rest (deliver pre w).
Proof.
  induction pre as [| l pre IH]; intros w H.
  - destruct w; unfold deliver; simpl. rewrite app_nil_r. reflexivity.
  - inversion H as [| ? ? Hl Hpre]; subst. simpl.
    unfold no_match, matches in Hl. rewrite Hl. simpl.
    rewrite (IH _ Hpre). f_equal.
    unfold deliver, fgets_line; simpl. f_equal; [lia |].
    rewrite <- app_assoc. reflexivity.
Qed.

(** The loop closes the file on each of its ways out, the failure of
    the allocation of line 157 among them. *)
Lemma room_read_loop_handles (room : heap_room) (bfr : nat) (name : cbuf)
      (mc : nat) (lines : list cbuf) :
  forall w : world,
    open_handles (snd (ManifestRoom.read_loop room bfr name mc lines w))
    = pred (open_handles w).
Proof.
  induction lines as [| l lines IH]; intro w; simpl; [reflexivity |].
  destruct (negb (is_main_class l mc)).
  - rewrite IH. reflexivity.
  - unfold ManifestRoom.on_match, HEAP_GET_DATA_room.
    destruct (negb (Nat.eqb (class_start l mc)
                            (class_end l (class_start l mc))));
      [| reflexivity].
    cbn [heap fclose].
    destruct (room (class_end l (class_start l mc) - class_start l mc + 1)
                   (heap (fgets_line l w))); reflexivity.
Qed.

(** Once the line buffer is allocated, or when the file cannot be
    opened, no handle is left open. *)
Lemma handle_released_with_buffer (room : heap_room) (bfr : nat)
      (fs : file_system) (name : cbuf) (w : world) :
  fs name = None \/ room bfr (heap w) = true ->
  open_handles (snd (ManifestRoom.manifest_get_main room bfr fs name w))
  = open_handles w.
Proof.
  intro H. unfold ManifestRoom.manifest_get_main, fopen, HEAP_GET_DATA_room.
  destruct (fs name) as [ls |]; [| reflexivity].
  destruct H as [H | H]; [discriminate H |].
  cbn [heap]. rewrite H. rewrite room_read_loop_handles. reflexivity.
Qed.

(** On a heap that never runs out the call is the call of the model
    whose allocations succeed. *)
Lemma room_read_loop_endless (room : heap_room) (bfr : nat) (name : cbuf)
      (mc : nat) (lines : list cbuf) :
  (forall size live, room size live = true) ->
  forall w : world,
    ManifestRoom.read_loop room bfr name mc lines w
    = (Done (fst (read_loop bfr name mc lines w)),
       snd (read_loop bfr name mc lines w)).
Proof.
  intro Hroom. induction lines as [| l lines IH]; intro w; simpl;
    [reflexivity |].
  destruct (negb (is_main_class l mc)); [apply IH |].
  unfold ManifestRoom.on_match, on_match, HEAP_GET_DATA_room.
  destruct (negb (Nat.eqb (class_start l mc)
                          (class_end l (class_start l mc))));
    [| reflexivity].
  rewrite Hroom. reflexivity.
Qed.

Lemma manifest_get_main_endless (room : heap_room) (bfr : nat)
      (fs : file_system) (name : cbuf) (w : world) :
  (forall size live, room size live = true) ->
  ManifestRoom.manifest_get_main room bfr fs name w
  = (Done (fst (manifest_get_main bfr fs name w)),
     snd (manifest_get_main bfr fs name w)).
Proof.
  intro Hroom.
  unfold ManifestRoom.manifest_get_main, manifest_get_main, fopen,
    HEAP_GET_DATA_room.
  destruct (fs name) as [ls |]; [| reflexivity].
  rewrite Hroom. apply room_read_loop_endless. exact Hroom.
Qed.

(** C7: the claim does not hold of the code.  When the file opens and
    the heap has no room for the line buffer, the allocation of line 99
    fails and control does not come back: no line is read, and the
    handle [fopen()] gave at line 92 stays open, for the [fclose()]
    calls of lines 151 and 180 are never reached. *)
Theorem C7_handle_left_open (room : heap_room) (bfr : nat)
        (fs : file_system) (name : cbuf) (w : world) (ls : list cbuf) :
  fs name = Some ls ->
  room bfr (heap w) = false ->
  fst (ManifestRoom.manifest_get_main room bfr fs name w)
  = Heap_failure bfr /\
  open_handles (snd (ManifestRoom.manifest_get_main room bfr fs name w))
  = S (open_handles w) /\
  fgets_calls (snd (ManifestRoom.manifest_get_main room bfr fs name w))
  = fgets_calls w /\
  heap (snd (ManifestRoom.manifest_get_main room bfr fs name w)) = heap w.
Proof.
  intros Hfs Hroom.
  unfold ManifestRoom.manifest_get_main, fopen, HEAP_GET_DATA_room.
  rewrite Hfs. cbn [heap]. rewrite Hroom. repeat split.
Qed.

Lemma C7_handle_left_open_witness :
  let r := ManifestRoom.manifest_get_main
             (bounded_heap 512) 1024
             (one_file [line "Main-Class: foo.Bar"]) mnf initial_world in
  fst r = Heap_failure 1024 /\
  open_handles (snd r) = 1 /\
  fgets_calls (snd r) = 0 /\
  heap (snd r) = [].
Proof.
  exact (C7_handle_left_open (bounded_heap 512) 1024
           (one_file [line "Main-Class: foo.Bar"]) mnf initial_world
           [line "Main-Class: foo.Bar"] eq_refl eq_refl).
Defined.

(** C8: [isspace()], the test of both scans, holds of exactly six
    characters: space, tab, newline, carriage return, form feed and
    vertical tab.  So [i] is behind white space only and on a character
    that is not white space or at the end of the string, [j] is behind
    characters that are not white space and on white space or at the
    end of the string, and a returned class name holds no newline and
    no carriage return. *)
Theorem C8_whitespace_class :
  (forall c, isspace c = true <-> white_six c) /\
  (forall l k, mclen <= k < fst (name_bounds l) -> white_six (char_at l k)) /\
  (forall l, fst (name_bounds l) < strlen l ->
             ~ white_six (char_at l (fst (name_bounds l)))) /\
  (forall l k, fst (name_bounds l) <= k < snd (name_bounds l) ->
               ~ white_six (char_at l k)) /\
  (forall l, snd (name_bounds l) < strlen l ->
             white_six (char_at l (snd (name_bounds l)))) /\
  (forall bfr fs name w v,
      fst (manifest_get_main bfr fs name w) = Returned (Some v) ->
      ~ In LF v /\ ~ In CR v).
Proof.
  split; [exact isspace_white_six |].
  split; [| split; [| split; [| split]]].
  - intros l k H. apply isspace_white_six. apply white_before_name. exact H.
  - intros l H Hw. apply isspace_white_six in Hw.
    rewrite (name_starts_not_space l H) in Hw. discriminate.
  - intros l k H Hw. apply isspace_white_six in Hw.
    rewrite (name_index_not_space l k H) in Hw. discriminate.
  - intros l H. apply isspace_white_six. apply name_ends_at_space. exact H.
  - intros bfr fs name w v Hv. apply returned_name_origin in Hv.
    destruct Hv as (pre & l & post & _ & _ & _ & _ & -> & _).
    split; intro Hin; apply class_name_chars in Hin;
      destruct Hin as [Hin _]; discriminate Hin.
Qed.

(** C9: a class name the call returns is not empty, holds no white
    space and no NUL byte, and has [j - i] characters, for the indices
    [i] and [j] computed on the first line that carries the attribute
    name. *)
Theorem C9_found_value_wellformed (bfr : nat) (fs : file_system)
        (name : cbuf) (w : world) (v : cbuf) :
  fst (manifest_get_main bfr fs name w) = Returned (Some v) ->
  1 <= length v /\
  Forall (fun c => isspace c = false) v /\
  ~ In NUL v /\
  exists pre l post,
    fs name = Some (pre ++ l :: post) /\ Forall no_match pre /\
    matches l = true /\
    v = memcpy l (fst (name_bounds l))
               (snd (name_bounds l) - fst (name_bounds l)) /\
    length v = snd (name_bounds l) - fst (name_bounds l).
Proof.
  intro Hv. apply returned_name_origin in Hv.
  destruct Hv as (pre & l & post & Hfs & Hpre & Hl & Hij & -> & _).
  pose proof (class_name_length l) as Hlen.
  pose proof (name_bounds_order l) as Hord. cbv zeta in Hord.
  split; [lia |]. split; [| split].
  - apply Forall_forall. intros c Hc. apply (class_name_chars l c Hc).
  - intro Hin. apply (class_name_chars l NUL Hin). reflexivity.
  - exists pre, l, post. repeat split; auto.
Qed.

Lemma C9_found_value_wellformed_witness :
  let v := list_ascii_of_string "foo.Bar" in
  1 <= length v /\
  Forall (fun c => isspace c = false) v /\
  ~ In NUL v /\
  exists pre l post,
    one_file [line "Other: y"; line "Main-Class:  foo.Bar "] mnf
    = Some (pre ++ l :: post) /\ Forall no_match pre /\
    matches l = true /\
    v = memcpy l (fst (name_bounds l))
               (snd (name_bounds l) - fst (name_bounds l)) /\
    length v = snd (name_bounds l) - fst (name_bounds l).
Proof.
  exact (C9_found_value_wellformed 1024
           (one_file [line "Other: y"; line "Main-Class:  foo.Bar "])
           mnf initial_world (list_ascii_of_string "foo.Bar") eq_refl).
Defined.

(** C10: the call ends on every manifest of finitely many lines.  It
    gives an outcome; the loop over the lines takes one step for each
    line [fgets()] delivers, these lines are a front part of the
    manifest, and [fgets()] is called at most once more than there are
    lines; on a line, the two scans move [i] from [mclen] and [j] from
    [i] by one character a step, together take no more steps than the
    line has characters, and each loop as written ends within as many
    tests of its condition as the line has characters, and one more. *)
Theorem C10_scan_terminates (bfr : nat) (fs : file_system) (name : cbuf)
        (w : world) :
  (exists o w',
      manifest_get_main bfr fs name w = (o, w') /\
      (fs name = None -> w' = w) /\
      (forall ls,
          fs name = Some ls ->
          exists read unread,
            ls = read ++ unread /\
            delivered w' = delivered w ++ read /\
            fgets_calls w' <= fgets_calls w + length read + 1 /\
            fgets_calls w' <= fgets_calls w + length ls + 1)) /\
  (forall l,
      mclen <= fst (name_bounds l) <= snd (name_bounds l) /\
      (fst (name_bounds l) - mclen)
      + (snd (name_bounds l) - fst (name_bounds l)) <= strlen l - mclen /\
      strlen l <= length l /\
      (matches l = true -> snd (name_bounds l) <= strlen l) /\
      (forall fuel,
          length l < fuel ->
          for_loop fuel (fun c => negb (isspace c)) l mclen
          = Some (fst (name_bounds l)) /\
          for_loop fuel isspace l (fst (name_bounds l))
          = Some (snd (name_bounds l)))).
Proof.
  split.
  - destruct (manifest_get_main_paths bfr fs name w)
      as [[Hfs R] | [(ls' & Hfs & _ & R)
                    | [(pre & l & post & Hfs & _ & _ & _ & R)
                      | (pre & l & post & Hfs & _ & _ & _ & R)]]];
      rewrite R; eexists; eexists; (split; [reflexivity |]);
      (split; [intro H; rewrite Hfs in H; try discriminate H; reflexivity |]);
      intros ls Hls; rewrite Hfs in Hls; try discriminate Hls;
      injection Hls as <-.
    + exists ls', []. simpl. rewrite app_nil_r. repeat split; lia.
    + exists (pre ++ [l]), post. simpl.
      rewrite <- !app_assoc, !length_app. simpl. repeat split; lia.
    + exists (pre ++ [l]), post. simpl.
      rewrite <- !app_assoc, !length_app. simpl. repeat split; lia.
  - intro l.
    pose proof (name_bounds_order l) as Hord. cbv zeta in Hord.
    pose proof (name_bounds_steps l) as Hsteps. cbv zeta in Hsteps.
    pose proof (strlen_le_length l) as Hlen.
    split; [lia |]. split; [lia |]. split; [lia |]. split.
    + intro Hl. apply matches_strlen in Hl. lia.
    + intros fuel Hfuel. unfold name_bounds, class_start, class_end.
      cbn [fst snd]. split; apply for_loop_scan_index; lia.
Qed.

(** ** Further properties of [manifest_get_main()] *)

(** *** The class name as the first token behind the attribute name *)

(** A scan that starts behind [pre] and runs over characters [mid] that
    do not stop it ends right behind [mid], when the string ends there
    or a character that stops the scan follows. *)
Lemma scan_index_run (stop : rchar -> bool) (mid : cbuf) :
  forall (pre post : cbuf) (left : nat),
    Forall (fun c => stop c = false) mid ->
    (left = length mid \/
     (length mid < left /\ exists c r, post = c :: r /\ stop c = true)) ->
    scan_index stop (pre ++ mid ++ post) left (length pre)
    = length pre + length mid.
Proof.
  induction mid as [| m mid IH]; intros pre post left Hmid Hleft.
  - destruct Hleft as [-> | (Hlt & c & r & -> & Hc)]; simpl; [lia |].
    destruct left as [| left]; [simpl in Hlt; lia |]. simpl.
    rewrite char_at_middle, Hc. lia.
  - inversion Hmid as [| ? ? Hm Hmid']; subst.
    destruct left as [| left].
    { exfalso. destruct Hleft as [H | [H _]]; simpl in H; lia. }
    cbn [scan_index app]. rewrite char_at_middle, Hm.
    replace (pre ++ m :: mid ++ post) with ((pre ++ [m]) ++ mid ++ post)
      by (rewrite <- app_assoc; reflexivity).
    replace (S (length pre)) with (length (pre ++ [m]))
      by (rewrite length_app; simpl; lia).
    rewrite (IH (pre ++ [m]) post left Hmid').
    + rewrite length_app; simpl; lia.
    + destruct Hleft as [H | [H Hpost]]; simpl in H.
      * left. lia.
      * right. split; [lia | exact Hpost].
Qed.

Lemma ends_name_strlen (tail : cbuf) :
  ends_name tail ->
  strlen tail = 0 \/ exists c r, tail = c :: r /\ isspace c = true.
Proof.
  intros [-> | (c & r & -> & [Hc | ->])].
  - left. reflexivity.
  - right. exists c, r. auto.
  - left. reflexivity.
Qed.

Section TokenLine.

Variables ws1 value tail : cbuf.
Hypothesis ws1_white : Forall (fun c => isspace c = true) ws1.
Hypothesis value_not_empty : value <> [].
Hypothesis value_not_white : Forall (fun c => isspace c = false) value.
Hypothesis value_no_NUL : ~ In NUL value.
Hypothesis tail_ends_name : ends_name tail.

Let l : cbuf := JVMCFG_JARFILE_MANIFEST_MAIN_CLASS ++ ws1 ++ value ++ tail.

Lemma token_line_matches : matches l = true.
Proof. apply matches_firstn. reflexivity. Qed.

Lemma token_line_strlen :
  strlen l = mclen + (length ws1 + (length value + strlen tail)).
Proof.
  subst l.
  rewrite (strlen_app_no_NUL _ _ main_class_no_NUL), main_class_length.
  rewrite (strlen_app_no_NUL _ _ (white_not_NUL ws1 ws1_white)).
  rewrite (strlen_app_no_NUL _ _ value_no_NUL). reflexivity.
Qed.

Lemma token_line_start : fst (name_bounds l) = mclen + length ws1.
Proof.
  unfold name_bounds, class_start; cbn [fst].
  rewrite token_line_strlen.
  subst l. rewrite <- main_class_length. apply scan_index_run.
  - apply Forall_impl with (2 := ws1_white).
    intros c Hc. rewrite Hc. reflexivity.
  - right. destruct value as [| c r]; [contradiction |].
    split; [simpl; lia |].
    exists c, (r ++ tail). split; [reflexivity |].
    inversion value_not_white as [| ? ? Hc _]; subst.
    rewrite Hc. reflexivity.
Qed.

Lemma token_line_end :
  snd (name_bounds l) = mclen + length ws1 + length value.
Proof.
  assert (Hi := token_line_start).
  unfold name_bounds in *; cbn [fst snd] in *.
  rewrite Hi. unfold class_end. rewrite token_line_strlen.
  subst l.
  replace (mclen + length ws1)
    with (length (JVMCFG_JARFILE_MANIFEST_MAIN_CLASS ++ ws1))
    by (rewrite length_app, main_class_length; reflexivity).
  rewrite app_assoc. apply scan_index_run; [exact value_not_white |].
  rewrite length_app, main_class_length.
  destruct (ends_name_strlen tail tail_ends_name)
    as [H0 | (c & r & Htail & Hc)].
  - left. lia.
  - right. split.
    + rewrite Htail. simpl.
      destruct (Ascii.eqb c NUL) eqn:E; [| lia].
      apply Ascii.eqb_eq in E. subst c. discriminate Hc.
    + exists c, r. auto.
Qed.

Lemma token_line_class_name : class_name l = value.
Proof.
  unfold class_name, memcpy.
  rewrite token_line_end, token_line_start.
  replace (mclen + length ws1 + length value - (mclen + length ws1))
    with (length value) by lia.
  subst l.
  replace (mclen + length ws1)
    with (length (JVMCFG_JARFILE_MANIFEST_MAIN_CLASS ++ ws1))
    by (rewrite length_app, main_class_length; reflexivity).
  rewrite app_assoc, skipn_length_app. apply firstn_length_app.
Qed.

Lemma token_line_bounds_differ :
  fst (name_bounds l) <> snd (name_bounds l).
Proof.
  rewrite token_line_end, token_line_start.
  destruct value; [contradiction | simpl; lia].
Qed.

End TokenLine.

(** X1: when the first line that carries the attribute name holds,
    behind the name, a run of white space (none too), then a value that
    is not empty and has no white space and no NUL byte, and behind the
    value nothing, or white space or a NUL byte followed by any
    characters, the call returns the value: the rest of that line and
    all lines behind it, continuation lines of the value among them,
    add nothing to it. *)
Theorem X1_first_token_returned (bfr : nat) (fs : file_system)
        (name : cbuf) (w : world) (pre post : list cbuf)
        (ws1 value tail : cbuf) :
  fs name
  = Some (pre ++ (JVMCFG_JARFILE_MANIFEST_MAIN_CLASS ++ ws1 ++ value ++ tail)
              :: post) ->
  Forall no_match pre ->
  Forall (fun c => isspace c = true) ws1 ->
  value <> [] ->
  Forall (fun c => isspace c = false) value ->
  ~ In NUL value ->
  ends_name tail ->
  fst (manifest_get_main bfr fs name w) = Returned (Some value).
Proof.
  intros Hfs Hpre H1 Hne Hv Hnul Htail.
  rewrite (manifest_get_main_found bfr fs name w pre post
             (JVMCFG_JARFILE_MANIFEST_MAIN_CLASS ++ ws1 ++ value ++ tail)).
  - cbn [fst]. rewrite token_line_class_name; auto.
  - exact Hfs.
  - exact Hpre.
  - apply token_line_matches.
  - apply token_line_bounds_differ; auto.
Qed.

Lemma X1_first_token_returned_witness :
  fst (scan [line "Manifest-Version: 1.0";
             line "Main-Class: name.of.sta rest of the line";
             line " rt.class"])
  = Returned (Some (list_ascii_of_string "name.of.sta")).
Proof.
  apply (X1_first_token_returned 1024
           (one_file [line "Manifest-Version: 1.0";
                      line "Main-Class: name.of.sta rest of the line";
                      line " rt.class"])
           mnf initial_world [line "Manifest-Version: 1.0"]
           [line " rt.class"] [SP] (list_ascii_of_string "name.of.sta")
           (line " rest of the line")).
  - reflexivity.
  - constructor; [reflexivity | constructor].
  - repeat constructor.
  - discriminate.
  - repeat constructor.
  - simpl. intuition discriminate.
  - right. exists SP, (line "rest of the line").
    split; [reflexivity | left; reflexivity].
Defined.

Lemma skipn_char_at (s : cbuf) :
  forall k, k < length s -> skipn k s = char_at s k :: skipn (S k) s.
Proof.
  induction s as [| c s IH]; intros k Hk; simpl in Hk; [lia |].
  destruct k as [| k]; [reflexivity |].
  change (skipn k s = char_at s k :: skipn (S k) s). apply IH. lia.
Qed.

(** Behind the C string of a buffer that holds more lies a NUL byte. *)
Lemma strlen_end (s : cbuf) :
  strlen s < length s -> char_at s (strlen s) = NUL.
Proof.
  induction s as [| c s IH]; simpl; intro H; [lia |].
  destruct (Ascii.eqb c NUL) eqn:E.
  - apply Ascii.eqb_eq in E. exact E.
  - change (char_at s (strlen s) = NUL). apply IH. lia.
Qed.

(** A line cut at three indices. *)
Lemma split_at_three (s : cbuf) (a b c : nat) :
  a <= b <= c ->
  s = firstn a s ++ memcpy s a (b - a) ++ memcpy s b (c - b) ++ skipn c s.
Proof.
  intros [Hab Hbc]. unfold memcpy.
  rewrite <- (firstn_skipn a s) at 1. f_equal.
  rewrite <- (firstn_skipn (b - a) (skipn a s)) at 1. f_equal.
  rewrite skipn_skipn. replace (b - a + a) with b by lia.
  rewrite <- (firstn_skipn (c - b) (skipn b s)) at 1. f_equal.
  rewrite skipn_skipn. replace (c - b + b) with c by lia. reflexivity.
Qed.

(** What follows the class name on a line that carries the attribute
    name. *)
Lemma tail_ends_name (l : cbuf) :
  mclen <= strlen l -> ends_name (skipn (snd (name_bounds l)) l).
Proof.
  intro Hm. pose proof (name_bounds_in_line l Hm) as Hj. cbv zeta in Hj.
  pose proof (strlen_le_length l) as Hlen.
  destruct (Nat.eq_dec (snd (name_bounds l)) (strlen l)) as [E | E].
  - rewrite E. destruct (Nat.eq_dec (strlen l) (length l)) as [E' | E'].
    + left. rewrite E'. apply skipn_all.
    + right. exists NUL, (skipn (S (strlen l)) l). split; [| right; auto].
      rewrite skipn_char_at by lia. rewrite strlen_end by lia. reflexivity.
  - right. exists (char_at l (snd (name_bounds l))),
             (skipn (S (snd (name_bounds l))) l).
    split; [apply skipn_char_at; lia |].
    left. apply name_ends_at_space. lia.
Qed.

Lemma white_run_before_name (l : cbuf) :
  Forall (fun c => isspace c = true)
         (memcpy l mclen (fst (name_bounds l) - mclen)).
Proof.
  apply Forall_forall. intros c Hc. apply In_memcpy in Hc.
  destruct Hc as (k & Hk & _ & <-).
  pose proof (name_bounds_order l) as Hord. cbv zeta in Hord.
  apply white_before_name. lia.
Qed.

(** X2: a class name the call returns is the first token of the first
    line that carries the attribute name: that line is the name, a run
    of white space, the class name, and then nothing, or white space or
    a NUL byte followed by any characters; and the class name is not
    empty and holds no white space and no NUL byte, so that it is the
    whole run of such characters behind the white space. *)
Theorem X2_returned_name_is_first_token (bfr : nat) (fs : file_system)
        (name : cbuf) (w : world) (v : cbuf) :
  fst (manifest_get_main bfr fs name w) = Returned (Some v) ->
  exists (pre post : list cbuf) (ws1 tail : cbuf),
    fs name
    = Some (pre ++ (JVMCFG_JARFILE_MANIFEST_MAIN_CLASS ++ ws1 ++ v ++ tail)
                :: post) /\
    Forall no_match pre /\
    Forall (fun c => isspace c = true) ws1 /\
    v <> [] /\
    Forall (fun c => isspace c = false) v /\
    ~ In NUL v /\
    ends_name tail.
Proof.
  intro Hv. apply returned_name_origin in Hv.
  destruct Hv as (pre & l & post & Hfs & Hpre & Hl & Hij & -> & _).
  pose proof (name_bounds_order l) as Hord. cbv zeta in Hord.
  exists pre, post, (memcpy l mclen (fst (name_bounds l) - mclen)),
    (skipn (snd (name_bounds l)) l).
  split; [| split; [exact Hpre | split; [| split; [| split; [| split]]]]].
  - rewrite Hfs. do 2 f_equal.
    rewrite (split_at_three l mclen (fst (name_bounds l))
               (snd (name_bounds l)) Hord) at 1.
    apply matches_firstn in Hl. rewrite Hl. reflexivity.
  - apply white_run_before_name.
  - intro E. apply class_name_empty_iff in E. contradiction.
  - apply Forall_forall. intros c Hc. apply (class_name_chars l c Hc).
  - intro Hin. apply (class_name_chars l NUL Hin). reflexivity.
  - apply tail_ends_name. apply matches_strlen. exact Hl.
Qed.

Lemma X2_returned_name_is_first_token_witness :
  exists (pre post : list cbuf) (ws1 tail : cbuf),
    one_file [line "Other: y"; line "Main-Class:  foo.Bar baz"] mnf
    = Some (pre ++ (JVMCFG_JARFILE_MANIFEST_MAIN_CLASS ++ ws1
                      ++ list_ascii_of_string "foo.Bar" ++ tail) :: post) /\
    Forall no_match pre /\
    Forall (fun c => isspace c = true) ws1 /\
    list_ascii_of_string "foo.Bar" <> [] /\
    Forall (fun c => isspace c = false) (list_ascii_of_string "foo.Bar") /\
    ~ In NUL (list_ascii_of_string "foo.Bar") /\
    ends_name tail.
Proof.
  exact (X2_returned_name_is_first_token 1024
           (one_file [line "Other: y"; line "Main-Class:  foo.Bar baz"])
           mnf initial_world (list_ascii_of_string "foo.Bar") eq_refl).
Defined.

(** *** The empty class name *)

(** A scan that no character stops runs to the end of the string. *)
Lemma scan_index_all (stop : rchar -> bool) (s : cbuf) (left : nat) :
  forall i,
    (forall k, i <= k < i + left -> stop (char_at s k) = false) ->
    scan_index stop s left i = i + left.
Proof.
  induction left as [| left IH]; intros i H; simpl; [lia |].
  rewrite (H i) by lia. rewrite IH; [lia |].
  intros k Hk. apply H. lia.
Qed.

(** The scan steps over a first character that does not stop it. *)
Lemma scan_index_advances (stop : rchar -> bool) (s : cbuf) (left i : nat) :
  0 < left -> stop (char_at s i) = false -> i < scan_index stop s left i.
Proof.
  intros Hleft Hstop. destruct left as [| left]; [lia |]. simpl.
  rewrite Hstop. pose proof (scan_index_bounds stop s left (S i)). lia.
Qed.

(** On a line that carries the attribute name, [i == j] says that only
    white space stands between the name and the end of the C string. *)
Lemma name_bounds_equal_iff (l : cbuf) :
  mclen <= strlen l ->
  (fst (name_bounds l) = snd (name_bounds l) <->
   forall k, mclen <= k < strlen l -> isspace (char_at l k) = true).
Proof.
  intro Hm.
  pose proof (name_bounds_order l) as Hord. cbv zeta in Hord.
  pose proof (name_bounds_in_line l Hm) as Hj. cbv zeta in Hj.
  split.
  - intros E k Hk. apply white_before_name.
    destruct (Nat.lt_ge_cases (fst (name_bounds l)) (strlen l))
      as [Hlt | Hge]; [| lia].
    exfalso.
    pose proof (name_starts_not_space l Hlt) as Hns.
    assert (fst (name_bounds l) < snd (name_bounds l)); [| lia].
    unfold name_bounds at 2; cbn [snd]. unfold class_end.
    change (class_start l mclen) with (fst (name_bounds l)).
    apply scan_index_advances; [lia | exact Hns].
  - intro H.
    assert (Hi : fst (name_bounds l) = strlen l).
    { unfold name_bounds, class_start; cbn [fst].
      rewrite scan_index_all; [lia |].
      intros k Hk. rewrite H by lia. reflexivity. }
    unfold name_bounds in *; cbn [fst snd] in *.
    rewrite Hi. unfold class_end. rewrite Nat.sub_diag. reflexivity.
Qed.

(** X3: the call leaves through [exit_jvm(EXIT_MANIFEST_JAR)] exactly
    when, on the first line that carries the attribute name, every
    character between the name and the end of the C string is white
    space. *)
Theorem X3_exit_iff_only_white_space (bfr : nat) (fs : file_system)
        (name : cbuf) (w : world) :
  fst (manifest_get_main bfr fs name w) = Exited EXIT_MANIFEST_JAR <->
  exists pre l post,
    fs name = Some (pre ++ l :: post) /\ Forall no_match pre /\
    matches l = true /\
    forall k, mclen <= k < strlen l -> isspace (char_at l k) = true.
Proof.
  split.
  - intro H.
    destruct (manifest_get_main_paths bfr fs name w)
      as [[_ R] | [(ls' & _ & _ & R)
                  | [(pre & l & post & _ & _ & _ & _ & R)
                    | (pre & l & post & Hfs & Hpre & Hl & E & R)]]];
      rewrite R in H; simpl in H; try discriminate.
    exists pre, l, post. repeat split; auto.
    apply name_bounds_equal_iff; [apply matches_strlen; exact Hl | exact E].
  - intros (pre & l & post & Hfs & Hpre & Hl & Hws).
    apply name_bounds_equal_iff in Hws; [| apply matches_strlen; exact Hl].
    rewrite (manifest_get_main_empty bfr fs name w pre post l
               Hfs Hpre Hl Hws).
    reflexivity.
Qed.

(** *** What the call leaves behind *)

Lemma app_one_neq {A : Type} (xs : list A) (x : A) : xs ++ [x] <> xs.
Proof.
  intro H. apply (f_equal (@length A)) in H.
  rewrite length_app in H. simpl in H. lia.
Qed.

(** X4: the call prints through [sysErrMsg()] at most once, and only on
    the way to [exit_jvm()]: when it returns, with a class name or with
    [rnull], it has printed nothing; when it exits, it has printed the
    one message "Missing class name in manifest file" with the file
    name. *)
Theorem X4_message_only_on_exit (bfr : nat) (fs : file_system)
        (name : cbuf) (w : world) :
  ((exists p, fst (manifest_get_main bfr fs name w) = Returned p) /\
   errlog (snd (manifest_get_main bfr fs name w)) = errlog w)
  \/
  (fst (manifest_get_main bfr fs name w) = Exited EXIT_MANIFEST_JAR /\
   errlog (snd (manifest_get_main bfr fs name w))
   = errlog w ++ [missing_class_name name] /\
   errlog (snd (manifest_get_main bfr fs name w)) <> errlog w).
Proof.
  destruct (manifest_get_main_paths bfr fs name w)
    as [[_ R] | [(ls' & _ & _ & R)
                | [(pre & l & post & _ & _ & _ & _ & R)
                  | (pre & l & post & _ & _ & _ & _ & R)]]];
    rewrite R; cbn [fst snd errlog].
  - left. split; [eexists; reflexivity | reflexivity].
  - left. split; [eexists; reflexivity | reflexivity].
  - left. split; [eexists; reflexivity | reflexivity].
  - right. repeat split. apply app_one_neq.
Qed.

(** X5: when the call returns [rnull], it leaves the heap, the open
    handles and the messages as they were: the line buffer is freed (or
    was never taken, when [fopen()] fails) and nothing is left to the
    caller to free.  When the file could be opened, [fgets()] has
    delivered every line of it, in order, and was called once more, at
    the end of the file. *)
Theorem X5_rnull_leaves_nothing (bfr : nat) (fs : file_system)
        (name : cbuf) (w : world) :
  fst (manifest_get_main bfr fs name w) = Returned rnull ->
  heap (snd (manifest_get_main bfr fs name w)) = heap w /\
  open_handles (snd (manifest_get_main bfr fs name w)) = open_handles w /\
  errlog (snd (manifest_get_main bfr fs name w)) = errlog w /\
  (fs name = None -> snd (manifest_get_main bfr fs name w) = w) /\
  (forall ls,
      fs name = Some ls ->
      delivered (snd (manifest_get_main bfr fs name w)) = delivered w ++ ls /\
      fgets_calls (snd (manifest_get_main bfr fs name w))
      = fgets_calls w + length ls + 1).
Proof.
  intro H.
  destruct (manifest_get_main_paths bfr fs name w)
    as [[Hfs R] | [(ls' & Hfs & _ & R)
                  | [(pre & l & post & _ & _ & _ & _ & R)
                    | (pre & l & post & _ & _ & _ & _ & R)]]];
    rewrite R in H |- *; cbn [fst] in H; try discriminate H;
    cbn [snd heap open_handles errlog delivered fgets_calls].
  - split; [| split; [| split; [| split]]]; auto.
    intros ls Hls. rewrite Hfs in Hls. discriminate.
  - split; [| split; [| split; [| split]]]; auto.
    + intro Hn. rewrite Hfs in Hn. discriminate.
    + intros ls Hls. rewrite Hfs in Hls. injection Hls as <-.
      split; [reflexivity | lia].
Qed.

Lemma X5_rnull_leaves_nothing_witness :
  let ls := [line "Manifest-Version: 1.0"; line "Class-Path: a.jar"] in
  heap (snd (scan ls)) = [] /\
  open_handles (snd (scan ls)) = 0 /\
  errlog (snd (scan ls)) = [] /\
  (one_file ls mnf = None -> snd (scan ls) = initial_world) /\
  (forall ls',
      one_file ls mnf = Some ls' ->
      delivered (snd (scan ls)) = [] ++ ls' /\
      fgets_calls (snd (scan ls)) = 0 + length ls' + 1).
Proof.
  exact (X5_rnull_leaves_nothing 1024
           (one_file [line "Manifest-Version: 1.0"; line "Class-Path: a.jar"])
           mnf initial_world eq_refl).
Defined.

(** X6: a returned class name fits in its line behind the attribute
    name and the white space skipped: the lengths of the name
    ["Main-Class:"], of that white space and of the class name add up to
    no more than [strlen(mnfdata)], so the block taken for the class
    name, of one byte more than the class name, has at most
    [strlen(mnfdata) - mclen + 1] bytes. *)
Theorem X6_class_name_fits (bfr : nat) (fs : file_system)
        (name : cbuf) (w : world) (v : cbuf) :
  fst (manifest_get_main bfr fs name w) = Returned (Some v) ->
  exists pre l post,
    fs name = Some (pre ++ l :: post) /\ Forall no_match pre /\
    matches l = true /\
    mclen + (fst (name_bounds l) - mclen) + length v <= strlen l /\
    strlen l <= length l /\
    heap (snd (manifest_get_main bfr fs name w)) = (length v + 1) :: heap w /\
    length v + 1 <= strlen l - mclen + 1.
Proof.
  intro Hv. apply returned_name_origin in Hv.
  destruct Hv as (pre & l & post & Hfs & Hpre & Hl & _ & -> & R).
  pose proof (name_bounds_steps l) as Hsteps. cbv zeta in Hsteps.
  pose proof (matches_strlen l Hl) as Hm.
  pose proof (class_name_length l) as Hlen.
  exists pre, l, post. rewrite R. cbn [heap].
  repeat split; auto; try lia. apply strlen_le_length.
Qed.

Lemma X6_class_name_fits_witness :
  exists pre l post,
    one_file [line "Main-Class:   foo.Bar"] mnf = Some (pre ++ l :: post) /\
    Forall no_match pre /\ matches l = true /\
    mclen + (fst (name_bounds l) - mclen)
    + length (list_ascii_of_string "foo.Bar") <= strlen l /\
    strlen l <= length l /\
    heap (snd (scan [line "Main-Class:   foo.Bar"]))
    = (length (list_ascii_of_string "foo.Bar") + 1) :: heap initial_world /\
    length (list_ascii_of_string "foo.Bar") + 1 <= strlen l - mclen + 1.
Proof.
  exact (X6_class_name_fits 1024 (one_file [line "Main-Class:   foo.Bar"])
           mnf initial_world (list_ascii_of_string "foo.Bar") eq_refl).
Defined.

(** *** Nothing behind the terminator is read *)

Section CString.

Local Arguments Ascii.eqb : simpl never.

Lemma c_string_cons (c : rchar) (s : cbuf) :
  c_string (c :: s) = if Ascii.eqb c NUL then [] else c :: c_string s.
Proof.
  unfold c_string. simpl. destruct (Ascii.eqb c NUL); reflexivity.
Qed.

Lemma strlen_c_string (s : cbuf) : strlen (c_string s) = strlen s.
Proof.
  induction s as [| c s IH]; [reflexivity |].
  rewrite c_string_cons. simpl.
  destruct (Ascii.eqb c NUL) eqn:E; [reflexivity |].
  simpl. rewrite E, IH. reflexivity.
Qed.

Lemma char_at_c_string (s : cbuf) (k : nat) :
  k < strlen s -> char_at (c_string s) k = char_at s k.
Proof.
  intro H. unfold char_at, c_string. rewrite nth_firstn.
  apply Nat.ltb_lt in H. rewrite H. reflexivity.
Qed.

Lemma strncmp_c_string (n : nat) :
  forall s lit : cbuf, strncmp (c_string s) lit n = strncmp s lit n.
Proof.
  induction n as [| n IH]; intros s lit; [reflexivity |].
  destruct s as [| c s]; [reflexivity |].
  rewrite c_string_cons. destruct (Ascii.eqb c NUL) eqn:E.
  - apply Ascii.eqb_eq in E. subst c. cbn [strncmp char_at nth].
    destruct (Ascii.eqb NUL (nth 0 lit NUL)); reflexivity.
  - cbn [strncmp char_at nth tl]. rewrite IH. reflexivity.
Qed.

Lemma scan_index_c_string (stop : rchar -> bool) (s : cbuf) (left : nat) :
  forall i,
    i + left <= strlen s ->
    scan_index stop (c_string s) left i = scan_index stop s left i.
Proof.
  induction left as [| left IH]; intros i H; [reflexivity |]. simpl.
  rewrite char_at_c_string by lia.
  destruct (stop (char_at s i)); [reflexivity |]. apply IH. lia.
Qed.

Lemma matches_c_string (l : cbuf) : matches (c_string l) = matches l.
Proof.
  unfold matches, is_main_class. rewrite strncmp_c_string. reflexivity.
Qed.

Lemma class_start_c_string (l : cbuf) :
  class_start (c_string l) mclen = class_start l mclen.
Proof.
  unfold class_start. rewrite strlen_c_string.
  destruct (Nat.le_gt_cases mclen (strlen l)) as [H | H].
  - apply scan_index_c_string. lia.
  - replace (strlen l - mclen) with 0 by lia. reflexivity.
Qed.

Lemma class_end_c_string (l : cbuf) (i : nat) :
  class_end (c_string l) i = class_end l i.
Proof.
  unfold class_end. rewrite strlen_c_string.
  destruct (Nat.le_gt_cases i (strlen l)) as [H | H].
  - apply scan_index_c_string. lia.
  - replace (strlen l - i) with 0 by lia. reflexivity.
Qed.

Lemma name_bounds_c_string (l : cbuf) :
  name_bounds (c_string l) = name_bounds l.
Proof.
  unfold name_bounds.
  rewrite class_start_c_string, class_end_c_string. reflexivity.
Qed.

Lemma class_name_c_string (l : cbuf) : class_name (c_string l) = class_name l.
Proof.
  unfold class_name. rewrite name_bounds_c_string.
  pose proof (name_bounds_steps l) as Hsteps. cbv zeta in Hsteps.
  pose proof (name_bounds_order l) as Hord. cbv zeta in Hord.
  unfold memcpy, c_string.
  rewrite skipn_firstn_comm, firstn_firstn. f_equal. lia.
Qed.

Lemma no_match_c_strings (ls : list cbuf) :
  Forall no_match ls -> Forall no_match (map c_string ls).
Proof.
  intro H. apply Forall_map. apply Forall_impl with (2 := H).
  intros l Hl. unfold no_match in *. rewrite matches_c_string. exact Hl.
Qed.

End CString.

(** X7: the call reads no byte behind the terminator of a line: with
    every line cut down to its C string, so without the bytes behind a
    NUL that the file or an earlier, longer line has left in the buffer,
    the outcome is the same, and so are the heap, the messages, the
    open handles and the number of [fgets()] calls. *)
Theorem X7_bytes_behind_NUL_ignored (bfr : nat) (fs : file_system)
        (name : cbuf) (w : world) :
  fst (manifest_get_main bfr (fs_c_strings fs) name w)
  = fst (manifest_get_main bfr fs name w) /\
  heap (snd (manifest_get_main bfr (fs_c_strings fs) name w))
  = heap (snd (manifest_get_main bfr fs name w)) /\
  errlog (snd (manifest_get_main bfr (fs_c_strings fs) name w))
  = errlog (snd (manifest_get_main bfr fs name w)) /\
  open_handles (snd (manifest_get_main bfr (fs_c_strings fs) name w))
  = open_handles (snd (manifest_get_main bfr fs name w)) /\
  fgets_calls (snd (manifest_get_main bfr (fs_c_strings fs) name w))
  = fgets_calls (snd (manifest_get_main bfr fs name w)).
Proof.
  destruct (manifest_get_main_paths bfr fs name w)
    as [[Hfs R] | [(ls & Hfs & Hno & R)
                  | [(pre & l & post & Hfs & Hpre & Hl & E & R)
                    | (pre & l & post & Hfs & Hpre & Hl & E & R)]]];
    rewrite R.
  - rewrite (manifest_get_main_no_file bfr (fs_c_strings fs) name w).
    + repeat split.
    + unfold fs_c_strings. rewrite Hfs. reflexivity.
  - rewrite (manifest_get_main_no_match bfr (fs_c_strings fs) name w
               (map c_string ls)).
    + cbn [fst snd heap errlog open_handles fgets_calls].
      rewrite length_map. repeat split.
    + unfold fs_c_strings. rewrite Hfs. reflexivity.
    + apply no_match_c_strings. exact Hno.
  - rewrite (manifest_get_main_found bfr (fs_c_strings fs) name w
               (map c_string pre) (map c_string post) (c_string l)).
    + cbn [fst snd heap errlog open_handles fgets_calls].
      rewrite class_name_c_string, length_map. repeat split.
    + unfold fs_c_strings. rewrite Hfs. simpl. rewrite map_app. reflexivity.
    + apply no_match_c_strings. exact Hpre.
    + rewrite matches_c_string. exact Hl.
    + rewrite name_bounds_c_string. exact E.
  - rewrite (manifest_get_main_empty bfr (fs_c_strings fs) name w
               (map c_string pre) (map c_string post) (c_string l)).
    + cbn [fst snd heap errlog open_handles fgets_calls].
      rewrite length_map. repeat split.
    + unfold fs_c_strings. rewrite Hfs. simpl. rewrite map_app. reflexivity.
    + apply no_match_c_strings. exact Hpre.
    + rewrite matches_c_string. exact Hl.
    + rewrite name_bounds_c_string. exact E.
Qed.

Example scan_stale_bytes :
  fst (scan [list_ascii_of_string "Main-Cl" ++ NUL
               :: list_ascii_of_string "ass: stale.Name" ++ [LF];
             list_ascii_of_string "Main-Class: a.B" ++ LF :: NUL
               :: list_ascii_of_string "earlier.line" ++ [LF]])
  = Returned (Some (list_ascii_of_string "a.B")).
Proof. reflexivity. Qed.

(** *** The allocation of the class name *)

(** X8: when the line buffer could be allocated and the heap then has
    no room for the class name of the first line that carries the
    attribute name, the allocation of line 157 fails and control does
    not come back: the file is closed by then (line 151), nothing is
    printed, and the line buffer is never freed (the comment of line
    159). *)
Theorem X8_line_buffer_left_on_heap (room : heap_room) (bfr : nat)
        (fs : file_system) (name : cbuf) (w : world)
        (pre post : list cbuf) (l : cbuf) :
  fs name = Some (pre ++ l :: post) ->
  Forall no_match pre -> matches l = true ->
  fst (name_bounds l) <> snd (name_bounds l) ->
  room bfr (heap w) = true ->
  room (length (class_name l) + 1) (bfr :: heap w) = false ->
  fst (ManifestRoom.manifest_get_main room bfr fs name w)
  = Heap_failure (length (class_name l) + 1) /\
  heap (snd (ManifestRoom.manifest_get_main room bfr fs name w))
  = bfr :: heap w /\
  open_handles (snd (ManifestRoom.manifest_get_main room bfr fs name w))
  = open_handles w /\
  errlog (snd (ManifestRoom.manifest_get_main room bfr fs name w))
  = errlog w /\
  delivered (snd (ManifestRoom.manifest_get_main room bfr fs name w))
  = delivered w ++ pre ++ [l].
Proof.
  intros Hfs Hpre Hl Hij Hbuf Hname.
  unfold ManifestRoom.manifest_get_main, fopen, HEAP_GET_DATA_room.
  rewrite Hfs. cbn [heap]. rewrite Hbuf. fold mclen.
  rewrite (room_read_loop_skip room bfr name pre (l :: post) _ Hpre).
  cbn [ManifestRoom.read_loop]. unfold matches in Hl. rewrite Hl.
  cbn [negb]. unfold ManifestRoom.on_match, HEAP_GET_DATA_room.
  change (class_start l mclen) with (fst (name_bounds l)).
  change (class_end l (fst (name_bounds l))) with (snd (name_bounds l)).
  apply Nat.eqb_neq in Hij. rewrite Hij. cbn [negb].
  rewrite <- class_name_length.
  cbn [heap fclose fgets_line deliver HEAP_GET_DATA].
  rewrite Hname. unfold fclose, fgets_line, deliver, HEAP_GET_DATA.
  cbn [fst snd heap open_handles errlog delivered pred].
  rewrite <- app_assoc. repeat split.
Qed.

Lemma X8_line_buffer_left_on_heap_witness :
  let r := ManifestRoom.manifest_get_main
             (bounded_heap 1030) 1024
             (one_file [line "Other: y"; line "Main-Class: foo.Bar"])
             mnf initial_world in
  fst r = Heap_failure 8 /\
  heap (snd r) = [1024] /\
  open_handles (snd r) = 0 /\
  errlog (snd r) = [] /\
  delivered (snd r) = [line "Other: y"; line "Main-Class: foo.Bar"].
Proof.
  exact (X8_line_buffer_left_on_heap (bounded_heap 1030) 1024
           (one_file [line "Other: y"; line "Main-Class: foo.Bar"])
           mnf initial_world [line "Other: y"] []
           (line "Main-Class: foo.Bar") eq_refl
           (Forall_cons _ (eq_refl : no_match (line "Other: y"))
                        (Forall_nil _))
           eq_refl
           (fun E => match E in (_ = n) return
                            (match n with 12 => True | _ => False end)
                      with eq_refl => I end)
           eq_refl eq_refl).
Defined.
